(** * baspy: backend dispatch ([_get_cubes.py]) and CMIP6 data citations
      ([experimental/gen_data_citation.py])

    A shallow embedding of the two Python modules and the properties of
    them that the specification states.

    Python values are modelled as follows.
    - [str] is [string]; a character is a code point below 256.
    - A pandas row is a finite map from column labels to cells, a
      DataFrame is the list of its rows, in row order.
    - A raised exception is the [Raise] outcome of a computation; the code
      has no [try], so an exception always propagates to the caller.
    - Calls that leave the repository (the dataset backends, the HTTP
      request, the XML parser) are parameters of the model; those with
      effects thread an abstract world state. *)

From Stdlib Require Import String Ascii List Bool Arith Lia.
From stdpp Require Import base gmap strings list.

(** ** Outcomes of Python computations *)

Inductive exn : Type :=
  | IndexError
  | KeyError (key : string)
  | TypeError
  | UnboundLocalError (var : string)
  | ValueError (msg : string)
  | ParseError
  | OtherError (msg : string).

Inductive result (A : Type) : Type :=
  | Return (a : A)
  | Raise (e : exn).
Arguments Return {A} a.
Arguments Raise {A} e.

(** A computation over a state [S]: it ends in a value or an exception
    and leaves a state behind in both cases. *)
Definition Py (S A : Type) : Type := S -> result A * S.

Definition py_ret {S A} (a : A) : Py S A := fun s => (Return a, s).

Definition py_raise {S A} (e : exn) : Py S A := fun s => (Raise e, s).

Definition py_bind {S A B} (m : Py S A) (k : A -> Py S B) : Py S B :=
  fun s =>
    match m s with
    | (Return a, s') => k a s'
    | (Raise e, s') => (Raise e, s')
    end.

(** A step that cannot touch the state: only its value or exception. *)
Definition py_lift {S A} (r : result A) : Py S A := fun s => (r, s).

Declare Scope py_scope.
Delimit Scope py_scope with py.
Notation "x <~ m ;; k" := (py_bind m (fun x => k))
  (at level 100, m at next level, right associativity) : py_scope.
Open Scope py_scope.

(** ** Python built-ins used by the two modules *)

Module Builtins.

(** [re.split(sep, s)] for a one-character literal pattern: the maximal
    pieces between occurrences of [sep], empty pieces included. *)
Fixpoint re_split (sep : ascii) (s : string) : list string :=
  match s with
  | EmptyString => [EmptyString]
  | String c s' =>
      if Ascii.eqb c sep then EmptyString :: re_split sep s'
      else match re_split sep s' with
           | [] => [String c EmptyString]
           | w :: ws => String c w :: ws
           end
  end.

(** [x in xs] for a list of strings. *)
Definition list_in (x : string) (xs : list string) : bool :=
  existsb (String.eqb x) xs.

(** [sub in s] for two strings: [sub] occurs in [s] as a substring. *)
Fixpoint str_in (sub s : string) : bool :=
  String.prefix sub s
  || match s with
     | EmptyString => false
     | String _ s' => str_in sub s'
     end.

(** [c.isupper()] for one character below code point 256: the letters
    A-Z and the Latin-1 capitals U+00C0-U+00D6 and U+00D8-U+00DE. *)
Definition isupper (c : ascii) : bool :=
  let n := nat_of_ascii c in
  ((65 <=? n) && (n <=? 90))
  || ((192 <=? n) && (n <=? 214))
  || ((216 <=? n) && (n <=? 222)).

(** [sep.join(xs)] for a list of strings. *)
Fixpoint str_join (sep : string) (xs : list string) : string :=
  match xs with
  | [] => EmptyString
  | [x] => x
  | x :: xs' => x +:+ sep +:+ str_join sep xs'
  end.

(** [xs[0]] on a list. *)
Definition getitem0 {A} (xs : list A) : result A :=
  match xs with
  | [] => Raise IndexError
  | x :: _ => Return x
  end.

(** What an f-string field shows for a value that is a [str] or [None]. *)
Definition fmt (v : option string) : string :=
  match v with
  | Some s => s
  | None => "None"
  end.

(** A string without the character [c]. *)
Definition free_of (c : ascii) (s : string) : Prop :=
  ~ In c (list_ascii_of_string s).

End Builtins.
Import Builtins.

(** ** [_get_cubes.py]: the backend dispatcher *)

Module GetCubes.

(** A cell of a catalogue table: a string, a number, or a missing value. *)
Inductive cell : Type :=
  | Str (s : string)
  | Num (n : Z)
  | NaN.

(** [pd.DataFrame]: the rows in order, each a map from column label to
    cell. *)
Definition DataFrame : Type := list (gmap string cell).

(** The [filt_cat] argument: a Series (one flat record, its index holding
    the column labels) or a DataFrame. *)
Inductive catalogue : Type :=
  | Series (values : gmap string cell)
  | Frame (df : DataFrame).

(** Lines 8-9 and 30-31: a Series becomes the DataFrame of that one row
    and a DataFrame is left as it is. *)
Definition to_frame (filt_cat : catalogue) : DataFrame :=
  match filt_cat with
  | Series values => [values]
  | Frame df => df
  end.

(** [filt_cat.iloc[0]] *)
Definition iloc0 (df : DataFrame) : result (gmap string cell) := getitem0 df.

(** [df0['Path']] *)
Definition getitem (row : gmap string cell) (label : string) : result cell :=
  match row !! label with
  | Some v => Return v
  | None => Raise (KeyError label)
  end.

(** [re.split('/', path0)]: a [TypeError] unless [path0] is a string. *)
Definition split_path (path0 : cell) : result (list string) :=
  match path0 with
  | Str s => Return (re_split "/" s)
  | _ => Raise TypeError
  end.

(** The two dataset families the dispatcher knows. *)
Inductive family : Type := Cmip5 | Happi.

(** The segments of the first row's [Path], when the record has a first
    row whose [Path] is a string. *)
Definition path_segments (filt_cat : catalogue) : option (list string) :=
  match to_frame filt_cat with
  | row :: _ =>
      match row !! "Path" with
      | Some (Str s) => Some (re_split "/" s)
      | _ => None
      end
  | [] => None
  end.

(** The number of rows of a record. *)
Definition nrows (filt_cat : catalogue) : nat := length (to_frame filt_cat).

Section Dispatcher.

(** Cubes and constraints are opaque to the dispatcher. *)
Variables cube constraint : Type.

(** The state of everything outside the dispatcher that a backend may
    read or change. *)
Variable world : Type.

(** [baspy.cmip5.get_cubes] and [baspy.happi.get_cubes], which are not
    part of these sources: any function of the arguments and the world
    that returns a sequence of cubes or raises. *)
Variable backend_get_cubes :
  family -> DataFrame -> option constraint -> bool -> Py world (list cube).

(** One recorded backend call with its arguments. *)
Record call : Type := Call {
  call_family : family;
  call_filt_cat : DataFrame;
  call_constraints : option constraint;
  call_verbose : bool
}.

(** The dispatcher runs over the world together with the log of the
    backend calls made so far, oldest first. *)
Record state : Type := State {
  ext : world;
  calls : list call
}.

(** Lines 17-18 and 21-22, the deferred import of the backend module and
    [baspy.<family>.get_cubes(filt_cat, constraints=..., verbose=...)]:
    the call is logged, then the backend runs on the world. *)
Definition invoke (f : family) (filt_cat : DataFrame)
    (constraints : option constraint) (verbose : bool) : Py state (list cube) :=
  fun s =>
    let '(r, w) := backend_get_cubes f filt_cat constraints verbose (ext s) in
    (r, State w (calls s ++ [Call f filt_cat constraints verbose])).

(** [get_cubes], lines 5-24. The local [cubes] is unbound ([None] here)
    until one of the two branches assigns it. *)
Definition get_cubes (filt_cat : catalogue) (constraints : option constraint)
    (verbose : bool) : Py state (list cube) :=
  let filt_cat := to_frame filt_cat in
  df0 <~ py_lift (iloc0 filt_cat) ;;
  path0 <~ py_lift (getitem df0 "Path") ;;
  split_str <~ py_lift (split_path path0) ;;
  cubes <~ (if list_in "cmip5" split_str
            then c <~ invoke Cmip5 filt_cat constraints verbose ;; py_ret (Some c)
            else py_ret None) ;;
  cubes <~ (if list_in "happi" split_str
            then c <~ invoke Happi filt_cat constraints verbose ;; py_ret (Some c)
            else py_ret cubes) ;;
  match cubes with
  | Some c => py_ret c
  | None => py_raise (UnboundLocalError "cubes")
  end.

(** [get_cube], lines 27-42. The local [cube] is unbound until the
    one-row branch assigns it. *)
Definition get_cube (filt_cat : catalogue) (constraints : option constraint)
    (verbose : bool) : Py state cube :=
  let filt_cat := to_frame filt_cat in
  cube0 <~ (if length filt_cat =? 1
            then cube0 <~ get_cubes (Frame filt_cat) constraints verbose ;;
                 cube0 <~ py_lift (getitem0 cube0) ;;
                 py_ret (Some cube0)
            else py_ret None) ;;
  if 1 <? length filt_cat
  then py_raise (ValueError "Error: more than one cube present.  Try 'get_cubes' instead")
  else if length filt_cat =? 0
  then py_raise (ValueError "Error: no cubes specified in catalogue.")
  else match cube0 with
       | Some c => py_ret c
       | None => py_raise (UnboundLocalError "cube")
       end.

End Dispatcher.

Arguments Call {constraint} _ _ _ _.
Arguments State {constraint world} _ _.
Arguments ext {constraint world} _.
Arguments calls {constraint world} _.
Arguments invoke {cube constraint world} _ _ _ _ _ _.
Arguments get_cubes {cube constraint world} _ _ _ _ _.
Arguments get_cube {cube constraint world} _ _ _ _ _.

End GetCubes.

(** ** [experimental/gen_data_citation.py]: CMIP6 data citations *)

Module GenDataCitation.

#[local] Set Warnings "-register-all".

(** [xml.etree.ElementTree.Element]: tag, attributes, text ([None] for an
    element without text) and child elements in document order. *)
Inductive Element : Type :=
  Elem {
    tag : string;
    attrib : gmap string string;
    text : option string;
    children : list Element
  }.

(** The dictionary [generate_citation] returns, one field per key. Texts
    taken from the document may be [None]. *)
Record CitationRecord : Type := {
  MIP : string;
  Centre : string;
  Model : string;
  Experiment : string;
  Version : string;
  doi : option string;
  publisher : option string;
  publicationYear : option string;
  givenNames : list (option string);
  familyNames : list (option string);
  names : list string;
  citation : string
}.

(** The five locals the loop of lines 50-63 assigns. *)
Record locals : Type := Locals {
  l_doi : option string;
  l_publisher : option string;
  l_publicationYear : option string;
  l_givenNames : list (option string);
  l_familyNames : list (option string)
}.

(** Lines 44-48. *)
Definition locals0 : locals :=
  Locals (Some EmptyString) (Some EmptyString) (Some EmptyString) [] [].

(** A [for] loop over [xs] whose body may raise: the body's exception ends
    the loop. *)
Fixpoint for_each {S X} (body : S -> X -> result S) (xs : list X) (s : S)
    : result S :=
  match xs with
  | [] => Return s
  | x :: xs' =>
      match body s x with
      | Return s' => for_each body xs' s'
      | Raise e => Raise e
      end
  end.

(** A list comprehension whose element expression may raise. *)
Fixpoint comprehension {X Y} (f : X -> result Y) (xs : list X)
    : result (list Y) :=
  match xs with
  | [] => Return []
  | x :: xs' =>
      match f x with
      | Return y =>
          match comprehension f xs' with
          | Return ys => Return (y :: ys)
          | Raise e => Raise e
          end
      | Raise e => Raise e
      end
  end.

(** Lines 56-59, the body of the innermost loop. *)
Definition scan_name (l : locals) (x : Element) : locals :=
  if str_in "givenName" (tag x) then
    Locals (l_doi l) (l_publisher l) (l_publicationYear l)
           (l_givenNames l ++ [text x]) (l_familyNames l)
  else if str_in "familyName" (tag x) then
    Locals (l_doi l) (l_publisher l) (l_publicationYear l)
           (l_givenNames l) (l_familyNames l ++ [text x])
  else l.

(** Lines 55-59, the loop over the children of one creator. *)
Definition scan_creator (l : locals) (creator : Element) : locals :=
  fold_left scan_name (children creator) l.

(** The test of line 51; the attribute is only read when the tag holds
    "identifier", and reading a missing attribute raises. *)
Definition is_doi_identifier (child : Element) : result bool :=
  if str_in "identifier" (tag child) then
    match attrib child !! "identifierType" with
    | Some t => Return (String.eqb t "DOI")
    | None => Raise (KeyError "identifierType")
    end
  else Return false.

(** Lines 51-63, the body of the loop over the children of the root. *)
Definition scan_child (l : locals) (child : Element) : result locals :=
  match is_doi_identifier child with
  | Raise e => Raise e
  | Return true =>
      Return (Locals (text child) (l_publisher l) (l_publicationYear l)
                     (l_givenNames l) (l_familyNames l))
  | Return false =>
      if str_in "creators" (tag child) then
        Return (fold_left scan_creator (children child) l)
      else if str_in "publisher" (tag child) then
        Return (Locals (l_doi l) (text child) (l_publicationYear l)
                       (l_givenNames l) (l_familyNames l))
      else if str_in "publicationYear" (tag child) then
        Return (Locals (l_doi l) (l_publisher l) (text child)
                       (l_givenNames l) (l_familyNames l))
      else Return l
  end.

(** Line 65, [[c for c in s if c.isupper()]]: the uppercase characters of
    a string, in order. *)
Definition capitals (s : string) : list ascii :=
  List.filter isupper (list_ascii_of_string s).

(** Line 65, the element expression for a given name that is a string:
    [".".join([c for c in s if c.isupper()]) + "."]. *)
Definition initials (s : string) : string :=
  str_join "." (map (fun c => String c EmptyString) (capitals s)) +:+ ".".

(** Line 65 for any collected text: iterating over [None] raises. *)
Definition initials_of (s : option string) : result string :=
  match s with
  | Some s => Return (initials s)
  | None => Raise TypeError
  end.

(** Line 66, the element expression [", ".join([a, b])]: joining [None]
    raises. *)
Definition display_name (ab : option string * string) : result string :=
  match fst ab with
  | Some a => Return (str_join ", " [a; snd ab])
  | None => Raise TypeError
  end.

(** A row of the input table as [df.itertuples()] yields it, with the five
    attributes [df_to_citations] reads. *)
Record Row : Type := {
  row_MIP : string;
  row_Centre : string;
  row_Model : string;
  row_Experiment : string;
  row_Version : string
}.

(** A child of the root that the loop treats as a creators block: line 51
    is false for it and its tag holds "creators". *)
Definition is_creators (child : Element) : bool :=
  match is_doi_identifier child with
  | Return false => str_in "creators" (tag child)
  | _ => false
  end.

(** The creator elements of a document, in document order. *)
Definition creators_of (root : Element) : list Element :=
  flat_map children (List.filter is_creators (children root)).

(** The texts one creator contributes to [givenNames] (line 56). *)
Definition given_of (creator : Element) : list (option string) :=
  map text
    (List.filter (fun x => str_in "givenName" (tag x)) (children creator)).

(** The texts one creator contributes to [familyNames] (line 58). *)
Definition family_of (creator : Element) : list (option string) :=
  map text
    (List.filter
       (fun x => negb (str_in "givenName" (tag x))
                 && str_in "familyName" (tag x))
       (children creator)).

(** A creator with exactly one given name and one family name. *)
Definition one_name_each (creator : Element) : Prop :=
  length (given_of creator) = 1 /\ length (family_of creator) = 1.

(** [x] occurs in [s] as a substring. *)
Definition occurs (x s : string) : Prop :=
  exists pre post, s = pre +:+ x +:+ post.

(** A child of the root on which line 51 raises: its tag holds
    "identifier" and it has no [identifierType] attribute. *)
Definition lacks_identifier_type (child : Element) : Prop :=
  str_in "identifier" (tag child) = true
  /\ attrib child !! "identifierType" = None.

(** A child of the root whose text line 52 assigns to [doi]. *)
Definition is_doi (child : Element) : bool :=
  match is_doi_identifier child with
  | Return true => true
  | _ => false
  end.

(** A child of the root whose text line 61 assigns to [publisher]. *)
Definition is_publisher (child : Element) : bool :=
  match is_doi_identifier child with
  | Return false =>
      negb (str_in "creators" (tag child)) && str_in "publisher" (tag child)
  | _ => false
  end.

(** A child of the root whose text line 63 assigns to
    [publicationYear]. *)
Definition is_publicationYear (child : Element) : bool :=
  match is_doi_identifier child with
  | Return false =>
      negb (str_in "creators" (tag child))
      && negb (str_in "publisher" (tag child))
      && str_in "publicationYear" (tag child)
  | _ => false
  end.

(** A child of the root that no branch of lines 51-63 takes. *)
Definition unmatched (child : Element) : Prop :=
  is_doi_identifier child = Return false
  /\ str_in "creators" (tag child) = false
  /\ str_in "publisher" (tag child) = false
  /\ str_in "publicationYear" (tag child) = false.

(** The text of the last element of a list of elements, [d] when there is
    none. *)
Definition last_text (d : option string) (xs : list Element) : option string :=
  from_option text d (last xs).

(** Lines 44-86 on a parsed document: the record built from the root
    element, or the exception raised on the way. *)
Definition record_of (MIP Centre Model Experiment Version : string)
    (root : Element) : result CitationRecord :=
  match for_each scan_child (children root) locals0 with
  | Raise e => Raise e
  | Return l =>
      match comprehension initials_of (l_givenNames l) with
      | Raise e => Raise e
      | Return initials =>
          match comprehension display_name (zip (l_familyNames l) initials)
          with
          | Raise e => Raise e
          | Return names =>
              Return {|
                MIP := MIP;
                Centre := Centre;
                Model := Model;
                Experiment := Experiment;
                Version := Version;
                doi := l_doi l;
                publisher := l_publisher l;
                publicationYear := l_publicationYear l;
                givenNames := l_givenNames l;
                familyNames := l_familyNames l;
                names := names;
                citation :=
                  str_join ", " names
                  +:+ (" (" +:+ fmt (l_publicationYear l) +:+ "). "
                       +:+ Centre +:+ " " +:+ Model
                       +:+ " model output prepared for CMIP6 " +:+ MIP
                       +:+ " " +:+ Experiment +:+ ". " +:+ Version +:+ ". "
                       +:+ fmt (l_publisher l) +:+ ". https://doi.org/"
                       +:+ fmt (l_doi l))
              |}
          end
      end
  end.

(** Lines 31-35, the query for one dataset. *)
Definition url (MIP Centre Model Experiment : string) : string :=
  "https://cera-www.dkrz.de/WDCC/ui/cerasearch/cerarest/"
  +:+ ("exportcmip6?input=CMIP6." +:+ MIP +:+ "." +:+ Centre +:+ "."
       +:+ Model +:+ "." +:+ Experiment)
  +:+ "&wt=XML".

Section Citation.

(** The state of the network and the remote service. *)
Variable world : Type.

(** [requests.get(url).text]: the response body, or a transport error. *)
Variable requests_get_text : string -> Py world string.

(** [ET.fromstring]: the root element of the document, or a parse error. *)
Variable fromstring : string -> result Element.

(** [generate_citation], lines 11-86. *)
Definition generate_citation (MIP Centre Model Experiment Version : string)
    : Py world CitationRecord :=
  let url := url MIP Centre Model Experiment in
  xml <~ requests_get_text url ;;
  root <~ py_lift (fromstring xml) ;;
  l <~ py_lift (for_each scan_child (children root) locals0) ;;
  initials <~ py_lift (comprehension initials_of (l_givenNames l)) ;;
  names <~ py_lift (comprehension display_name
                      (zip (l_familyNames l) initials)) ;;
  let citation :=
    str_join ", " names
    +:+ (" (" +:+ fmt (l_publicationYear l) +:+ "). " +:+ Centre +:+ " "
         +:+ Model +:+ " model output prepared for CMIP6 " +:+ MIP +:+ " "
         +:+ Experiment +:+ ". " +:+ Version +:+ ". " +:+ fmt (l_publisher l)
         +:+ ". https://doi.org/" +:+ fmt (l_doi l)) in
  py_ret {|
    MIP := MIP;
    Centre := Centre;
    Model := Model;
    Experiment := Experiment;
    Version := Version;
    doi := l_doi l;
    publisher := l_publisher l;
    publicationYear := l_publicationYear l;
    givenNames := l_givenNames l;
    familyNames := l_familyNames l;
    names := names;
    citation := citation
  |}.

(** Lines 96-101: the loop appending one result per row to [results]. *)
Fixpoint collect (rows : list Row) (results : list CitationRecord)
    : Py world (list CitationRecord) :=
  match rows with
  | [] => py_ret results
  | row :: rows' =>
      c <~ generate_citation (row_MIP row) (row_Centre row) (row_Model row)
             (row_Experiment row) (row_Version row) ;;
      collect rows' (results ++ [c])
  end.

(** [df_to_citations], lines 89-102; the output table is the list of its
    rows. *)
Definition df_to_citations (df : list Row) : Py world (list CitationRecord) :=
  collect df [].

(** Direct calls of [generate_citation] on the rows of [df], first row
    first, each starting in the world the previous one left: they return
    the records [out], in this order, and end in [w']. *)
Fixpoint row_by_row (df : list Row) (w : world) (out : list CitationRecord)
    (w' : world) : Prop :=
  match df, out with
  | [], [] => w = w'
  | row :: df', c :: out' =>
      exists w1,
        generate_citation (row_MIP row) (row_Centre row) (row_Model row)
          (row_Experiment row) (row_Version row) w = (Return c, w1)
        /\ row_by_row df' w1 out' w'
  | _, _ => False
  end.

End Citation.

Arguments generate_citation {world} _ _ _ _ _ _ _ _.
Arguments collect {world} _ _ _ _ _.
Arguments df_to_citations {world} _ _ _ _.
Arguments row_by_row {world} _ _ _ _ _ _.

End GenDataCitation.

(** ** Concrete inputs *)

Module Fixtures.
Import GetCubes GenDataCitation.

(** Two backends over a world that counts the calls: cmip5 returns the
    cubes 5, 6 and happi the cube 7. *)
Definition two_backends (f : family) (filt_cat : DataFrame)
    (constraints : option unit) (verbose : bool) : Py nat (list nat) :=
  fun w =>
    match f with
    | Cmip5 => (Return [5; 6], S w)
    | Happi => (Return [7], S w)
    end.

(** A catalogue row with the given path. *)
Definition row_at (path : string) : gmap string cell :=
  {[ "Path" := Str path ]}.

Definition cmip5_row : gmap string cell := row_at "a/b/cmip5/c".
Definition happi_row : gmap string cell := row_at "a/happi/b".
Definition both_row : gmap string cell := row_at "a/cmip5/happi".
Definition cmip6_row : gmap string cell := row_at "a/cmip6/b".

(** The dispatcher's state before any call. *)
Definition start : state unit nat := State 0 [].

(** A service that answers every request with the same body, over a
    world that counts the requests. *)
Definition one_body (u : string) : Py nat string :=
  fun w => (Return "<resource/>", S w).

(** A parser that reads every body as the given document. *)
Definition parsed_as (root : Element) (xml : string) : result Element :=
  Return root.

Definition leaf (t x : string) : Element := Elem t ∅ (Some x) [].

Definition creator (given family : string) : Element :=
  Elem "creator" ∅ None
    [leaf "creatorName" (family +:+ ", " +:+ given);
     leaf "givenName" given;
     leaf "familyName" family].

(** The document behind the example of the docstring of
    [generate_citation]. *)
Definition hadgem : Element :=
  Elem "resource" ∅ None
    [Elem "identifier" {[ "identifierType" := "DOI" ]}
       (Some "10.22033/ESGF/CMIP6.6109") [];
     Elem "creators" ∅ None
       [creator "Jeff" "Ridley"; creator "Matthew" "Menary";
        creator "Till" "Kuhlbrodt"; creator "Martin" "Andrews";
        creator "Tim" "Andrews"];
     leaf "publisher" "Earth System Grid Federation";
     leaf "publicationYear" "2019"].

(** A document whose only creator has a given name and no family name. *)
Definition mononym : Element :=
  Elem "resource" ∅ None
    [Elem "creators" ∅ None
       [Elem "creator" ∅ None [leaf "givenName" "Jeff"]]].

Definition hadgem_row : Row :=
  {| row_MIP := "CMIP"; row_Centre := "MOHC"; row_Model := "HadGEM3-GC31-LL";
     row_Experiment := "historical"; row_Version := "v20190624" |}.

(** The example output of the docstring of [generate_citation]. *)
Definition hadgem_record : CitationRecord :=
  {| MIP := "CMIP"; Centre := "MOHC"; Model := "HadGEM3-GC31-LL";
     Experiment := "historical"; Version := "v20190624";
     doi := Some "10.22033/ESGF/CMIP6.6109";
     publisher := Some "Earth System Grid Federation";
     publicationYear := Some "2019";
     givenNames :=
       [Some "Jeff"; Some "Matthew"; Some "Till"; Some "Martin"; Some "Tim"];
     familyNames :=
       [Some "Ridley"; Some "Menary"; Some "Kuhlbrodt"; Some "Andrews";
        Some "Andrews"];
     names :=
       ["Ridley, J."; "Menary, M."; "Kuhlbrodt, T."; "Andrews, M.";
        "Andrews, T."];
     citation :=
       "Ridley, J., Menary, M., Kuhlbrodt, T., Andrews, M., Andrews, T. (2019). MOHC HadGEM3-GC31-LL model output prepared for CMIP6 CMIP historical. v20190624. Earth System Grid Federation. https://doi.org/10.22033/ESGF/CMIP6.6109"
  |}.

(** The record for [ssp_row] when the service answers with the same
    document. *)
Definition ssp_record : CitationRecord :=
  {| MIP := "ScenarioMIP"; Centre := "MOHC"; Model := "HadGEM3-GC31-LL";
     Experiment := "ssp245"; Version := "v20190908";
     doi := doi hadgem_record;
     publisher := publisher hadgem_record;
     publicationYear := publicationYear hadgem_record;
     givenNames := givenNames hadgem_record;
     familyNames := familyNames hadgem_record;
     names := names hadgem_record;
     citation :=
       "Ridley, J., Menary, M., Kuhlbrodt, T., Andrews, M., Andrews, T. (2019). MOHC HadGEM3-GC31-LL model output prepared for CMIP6 ScenarioMIP ssp245. v20190908. Earth System Grid Federation. https://doi.org/10.22033/ESGF/CMIP6.6109"
  |}.

Definition ssp_row : Row :=
  {| row_MIP := "ScenarioMIP"; row_Centre := "MOHC";
     row_Model := "HadGEM3-GC31-LL"; row_Experiment := "ssp245";
     row_Version := "v20190908" |}.

End Fixtures.

(** ** Concrete inputs for the edge cases *)

Module EdgeFixtures.
Import GetCubes GenDataCitation Fixtures.

(** A row without a [Path] column and a row whose [Path] is a number. *)
Definition pathless_row : gmap string cell := {[ "Model" := Str "HadGEM3" ]}.
Definition numeric_path_row : gmap string cell := {[ "Path" := Num 3 ]}.

(** Backends of which cmip5 fails: it raises, happi returns the cube 7. *)
Definition cmip5_down (f : family) (filt_cat : DataFrame)
    (constraints : option unit) (verbose : bool) : Py nat (list nat) :=
  fun w =>
    match f with
    | Cmip5 => (Raise (OtherError "cmip5 archive offline"), S w)
    | Happi => (Return [7], S w)
    end.

(** Backends that find no cube. *)
Definition no_cubes (f : family) (filt_cat : DataFrame)
    (constraints : option unit) (verbose : bool) : Py nat (list nat) :=
  fun w => (Return [], S w).

(** A document with an identifier that has no [identifierType]. *)
Definition untyped_identifier : Element :=
  Elem "resource" ∅ None
    [leaf "publisher" "Earth System Grid Federation";
     leaf "identifier" "10.22033/ESGF/CMIP6.6109";
     leaf "publicationYear" "2019"].

(** A document with two publishers, two years, two DOI identifiers and an
    identifier of another type. *)
Definition repeated_fields : Element :=
  Elem "resource" ∅ None
    [Elem "identifier" {[ "identifierType" := "DOI" ]} (Some "10.1/old") [];
     leaf "publisher" "DKRZ";
     leaf "publicationYear" "2018";
     Elem "identifier" {[ "identifierType" := "URL" ]} (Some "http://x") [];
     Elem "identifier" {[ "identifierType" := "DOI" ]} (Some "10.1/new") [];
     leaf "publisher" "Earth System Grid Federation";
     leaf "publicationYear" "2019"].

(** A document with two creators of which the second has no family
    name. *)
Definition uneven : Element :=
  Elem "resource" ∅ None
    [Elem "creators" ∅ None
       [creator "Jeff" "Ridley";
        Elem "creator" ∅ None [leaf "givenName" "Matthew"]]].

(** A document whose creator has an empty [givenName] element. *)
Definition empty_given : Element :=
  Elem "resource" ∅ None
    [Elem "creators" ∅ None
       [Elem "creator" ∅ None
          [Elem "givenName" ∅ None []; leaf "familyName" "Ridley"]]].

(** A document with none of the elements the loop looks for. *)
Definition titles_only : Element :=
  Elem "resource" ∅ None
    [Elem "titles" ∅ None [leaf "title" "HadGEM3 output"];
     Elem "alternateIdentifier" ∅ (Some "abc") []].

(** The record of [titles_only] for the dataset of the docstring. *)
Definition blank_record : CitationRecord :=
  {| MIP := "CMIP"; Centre := "MOHC"; Model := "HadGEM3-GC31-LL";
     Experiment := "historical"; Version := "v20190624";
     doi := Some EmptyString; publisher := Some EmptyString;
     publicationYear := Some EmptyString;
     givenNames := []; familyNames := []; names := [];
     citation :=
       " (). MOHC HadGEM3-GC31-LL model output prepared for CMIP6 CMIP historical. v20190624. . https://doi.org/"
  |}.

(** A service that answers the first request and fails afterwards. *)
Definition one_answer (u : string) : Py nat string :=
  fun w =>
    match w with
    | 0 => (Return "<resource/>", 1)
    | S _ => (Raise (OtherError "connection refused"), S w)
    end.

(** A namespaced given-name element. *)
Definition namespaced_given : Element :=
  leaf "{http://datacite.org/schema/kernel-4}givenName" "Jeff".

(** The record of [repeated_fields] for the dataset of the docstring. *)
Definition repeated_record : CitationRecord :=
  {| MIP := "CMIP"; Centre := "MOHC"; Model := "HadGEM3-GC31-LL";
     Experiment := "historical"; Version := "v20190624";
     doi := Some "10.1/new";
     publisher := Some "Earth System Grid Federation";
     publicationYear := Some "2019";
     givenNames := []; familyNames := []; names := [];
     citation :=
       " (2019). MOHC HadGEM3-GC31-LL model output prepared for CMIP6 CMIP historical. v20190624. Earth System Grid Federation. https://doi.org/10.1/new"
  |}.

(** The record of [uneven] for the dataset of the docstring. *)
Definition uneven_record : CitationRecord :=
  {| MIP := "CMIP"; Centre := "MOHC"; Model := "HadGEM3-GC31-LL";
     Experiment := "historical"; Version := "v20190624";
     doi := Some EmptyString; publisher := Some EmptyString;
     publicationYear := Some EmptyString;
     givenNames := [Some "Jeff"; Some "Matthew"];
     familyNames := [Some "Ridley"];
     names := ["Ridley, J."];
     citation :=
       "Ridley, J. (). MOHC HadGEM3-GC31-LL model output prepared for CMIP6 CMIP historical. v20190624. . https://doi.org/"
  |}.

End EdgeFixtures.

(** ** Properties of the dispatcher *)

Module GetCubesFacts.
Import GetCubes Fixtures.

Lemma list_in_In x xs : list_in x xs = true <-> In x xs.
Proof.
  unfold list_in. rewrite existsb_exists. split.
  - intros (y & Hy & E). apply String.eqb_eq in E. now subst.
  - intros H. exists x. split; [assumption | apply String.eqb_refl].
Qed.

Lemma list_in_not_In x xs : list_in x xs = false <-> ~ In x xs.
Proof.
  rewrite <- list_in_In. destruct (list_in x xs); split; congruence.
Qed.

Section Facts.

Context {cube constraint world : Type}.
Context (B : family -> DataFrame -> option constraint -> bool
             -> Py world (list cube)).

Implicit Types (fc : catalogue) (c : option constraint) (v : bool).
Implicit Types (s : state constraint world).

(** Once the first row's path is known, [get_cubes] is the two tests and
    the final read of [cubes]. *)
Lemma get_cubes_on_segments fc c v segs s :
  path_segments fc = Some segs ->
  get_cubes B fc c v s =
    (cubes <~ (if list_in "cmip5" segs
               then x <~ invoke B Cmip5 (to_frame fc) c v ;; py_ret (Some x)
               else py_ret None) ;;
     cubes <~ (if list_in "happi" segs
               then x <~ invoke B Happi (to_frame fc) c v ;; py_ret (Some x)
               else py_ret cubes) ;;
     match cubes with
     | Some x => py_ret x
     | None => py_raise (UnboundLocalError "cubes")
     end) s.
Proof.
  unfold path_segments, get_cubes. intros H.
  destruct (to_frame fc) as [|row rows] eqn:Efc; [discriminate|].
  unfold py_bind at 1. unfold py_lift at 1. simpl iloc0. cbv beta iota.
  unfold py_bind at 1. unfold py_lift at 1, getitem.
  destruct (row !! "Path") as [[p| |]|] eqn:Ep; try discriminate.
  injection H as <-. reflexivity.
Qed.

(** The same record, already a DataFrame, dispatches the same way. *)
Lemma get_cubes_to_frame fc c v s :
  get_cubes B (Frame (to_frame fc)) c v s = get_cubes B fc c v s.
Proof. reflexivity. Qed.

(** Running a backend under the log returns what the backend returns and
    appends exactly one entry. *)
Lemma invoke_logs f (df : DataFrame) c v s :
  fst (invoke B f df c v s) = fst (B f df c v (ext s))
  /\ calls (snd (invoke B f df c v s)) = calls s ++ [Call f df c v].
Proof.
  unfold invoke. destruct (B f df c v (ext s)) as [r w]. split; reflexivity.
Qed.

(** C1, amended. When the segments of the first row's Path contain
    'cmip5' and not 'happi', [get_cubes] is exactly one call of the cmip5
    backend on the record with the caller's constraints and verbosity:
    same result, same effects. When they contain 'happi' and not 'cmip5',
    it is exactly one call of the happi backend. Whenever they contain
    'happi', a value that [get_cubes] returns is the value the happi
    backend returned. *)
Theorem get_cubes_dispatch fc c v segs :
  path_segments fc = Some segs ->
  (In "cmip5" segs -> ~ In "happi" segs ->
     forall s, get_cubes B fc c v s = invoke B Cmip5 (to_frame fc) c v s)
  /\ (In "happi" segs -> ~ In "cmip5" segs ->
     forall s, get_cubes B fc c v s = invoke B Happi (to_frame fc) c v s)
  /\ (In "happi" segs ->
     forall s cubes s',
       get_cubes B fc c v s = (Return cubes, s') ->
       exists s0, invoke B Happi (to_frame fc) c v s0 = (Return cubes, s')).
Proof.
  intros Hseg. repeat split.
  - intros H5 Hh s. rewrite (get_cubes_on_segments fc c v segs s Hseg).
    apply list_in_In in H5. apply list_in_not_In in Hh. rewrite H5, Hh.
    unfold py_bind, py_ret.
    destruct (invoke B Cmip5 (to_frame fc) c v s) as [[x|e] s1]; reflexivity.
  - intros Hh H5 s. rewrite (get_cubes_on_segments fc c v segs s Hseg).
    apply list_in_In in Hh. apply list_in_not_In in H5. rewrite H5, Hh.
    unfold py_bind, py_ret.
    destruct (invoke B Happi (to_frame fc) c v s) as [[x|e] s1]; reflexivity.
  - intros Hh s cubes s'. rewrite (get_cubes_on_segments fc c v segs s Hseg).
    apply list_in_In in Hh. rewrite Hh.
    unfold py_bind, py_ret.
    destruct (list_in "cmip5" segs).
    + destruct (invoke B Cmip5 (to_frame fc) c v s) as [[x|e] s1];
        [|discriminate].
      destruct (invoke B Happi (to_frame fc) c v s1) as [[y|e] s2] eqn:E;
        [|discriminate].
      intros [= <- <-]. now exists s1.
    + destruct (invoke B Happi (to_frame fc) c v s) as [[y|e] s2] eqn:E;
        [|discriminate].
      intros [= <- <-]. now exists s.
Qed.

(** C9. The two tags are tested in the order cmip5, happi, and the second
    assignment to [cubes] replaces the first: when the segments of the
    first row's Path contain both tags, [get_cubes] calls the cmip5
    backend, drops its value and continues as the call of the happi
    backend, so a value it returns is the one the happi backend
    returned. *)
Theorem get_cubes_later_tag_wins fc c v segs s :
  path_segments fc = Some segs ->
  In "cmip5" segs -> In "happi" segs ->
  get_cubes B fc c v s =
    (_ <~ invoke B Cmip5 (to_frame fc) c v ;;
     invoke B Happi (to_frame fc) c v) s
  /\ forall cubes s',
       get_cubes B fc c v s = (Return cubes, s') ->
       exists x s1,
         invoke B Cmip5 (to_frame fc) c v s = (Return x, s1)
         /\ invoke B Happi (to_frame fc) c v s1 = (Return cubes, s').
Proof.
  intros Hseg H5 Hh. rewrite (get_cubes_on_segments fc c v segs s Hseg).
  apply list_in_In in H5, Hh. rewrite H5, Hh.
  unfold py_bind, py_ret.
  destruct (invoke B Cmip5 (to_frame fc) c v s) as [[x|e] s1].
  - destruct (invoke B Happi (to_frame fc) c v s1) as [[y|e] s2] eqn:E.
    + split; [reflexivity|]. intros cubes s' [= <- <-]. now exists x, s1.
    + split; [reflexivity|]. discriminate.
  - split; [reflexivity|]. discriminate.
Qed.

(** C8. When the segments of the first row's Path contain neither
    'cmip5' nor 'happi', [get_cubes] returns no cubes: reading the
    unassigned local [cubes] raises. The state is the one it started in,
    so no backend was called. *)
Theorem get_cubes_unknown_family fc c v segs s :
  path_segments fc = Some segs ->
  ~ In "cmip5" segs -> ~ In "happi" segs ->
  get_cubes B fc c v s = (Raise (UnboundLocalError "cubes"), s)
  /\ calls (snd (get_cubes B fc c v s)) = calls s.
Proof.
  intros Hseg H5 Hh. rewrite (get_cubes_on_segments fc c v segs s Hseg).
  apply list_in_not_In in H5, Hh. rewrite H5, Hh. split; reflexivity.
Qed.

(** C2. For a record with exactly one row, [get_cube] is [get_cubes] on
    the same record, constraints and verbosity followed by taking element
    0 of the returned sequence; when [get_cubes] returns a sequence with
    first element [x], [get_cube] returns [x]. *)
Theorem get_cube_single_row fc c v s :
  nrows fc = 1 ->
  get_cube B fc c v s =
    (cubes <~ get_cubes B fc c v ;; py_lift (getitem0 cubes)) s
  /\ forall x rest s',
       get_cubes B fc c v s = (Return (x :: rest), s') ->
       get_cube B fc c v s = (Return x, s').
Proof.
  unfold nrows. intros Hn.
  assert (E : get_cube B fc c v s =
    (cubes <~ get_cubes B fc c v ;; py_lift (getitem0 cubes)) s).
  { unfold get_cube. rewrite Hn. cbn [Nat.eqb Nat.ltb Nat.leb].
    unfold py_bind, py_lift, py_ret. rewrite get_cubes_to_frame.
    destruct (get_cubes B fc c v s) as [[cubes|e] s1]; [|reflexivity].
    destruct cubes; reflexivity. }
  split; [exact E|].
  intros x rest s' H. rewrite E. unfold py_bind. rewrite H. reflexivity.
Qed.

(** C3. On a record with zero rows [get_cube] raises the "no cubes
    specified" error, and on a record with two or more rows it raises the
    "more than one cube" error that names [get_cubes]; in both cases the
    state is untouched and nothing is returned. *)
Theorem get_cube_row_count_errors fc c v s :
  (nrows fc = 0 ->
     get_cube B fc c v s =
       (Raise (ValueError "Error: no cubes specified in catalogue."), s))
  /\ (2 <= nrows fc ->
     get_cube B fc c v s =
       (Raise (ValueError
          "Error: more than one cube present.  Try 'get_cubes' instead"), s)).
Proof.
  unfold nrows, get_cube. split; intros Hn.
  - rewrite Hn. reflexivity.
  - destruct (length (to_frame fc)) as [|[|n]] eqn:E; [lia | lia |].
    reflexivity.
Qed.

End Facts.

(** Membership of a literal in a literal list of segments. *)
Ltac segs_in := simpl; tauto.
Ltac segs_notin := simpl; intros H; decompose [or] H; discriminate || contradiction.

(** C1 on "a/b/cmip5/c", on "a/happi/b" given as a Series, and on
    "a/cmip5/happi". *)
Lemma get_cubes_dispatch_witness :
  get_cubes two_backends (Frame [cmip5_row]) None true start
    = invoke two_backends Cmip5 [cmip5_row] None true start
  /\ get_cubes two_backends (Series happi_row) None true start
    = invoke two_backends Happi [happi_row] None true start
  /\ exists s0,
       invoke two_backends Happi [both_row] None true s0
         = (Return [7],
            State 2 [Call Cmip5 [both_row] None true;
                     Call Happi [both_row] None true]).
Proof.
  split; [|split].
  - apply (get_cubes_dispatch two_backends (Frame [cmip5_row]) None true
             ["a"; "b"; "cmip5"; "c"] eq_refl); [segs_in | segs_notin].
  - apply (get_cubes_dispatch two_backends (Series happi_row) None true
             ["a"; "happi"; "b"] eq_refl); [segs_in | segs_notin].
  - apply (proj2 (proj2 (get_cubes_dispatch two_backends (Frame [both_row])
             None true ["a"; "cmip5"; "happi"] eq_refl))) with (s := start);
      [segs_in | reflexivity].
Defined.

(** C1 as stated fails on the path "a/cmip5/happi": the segments contain
    'cmip5', the cmip5 backend returns the cubes 5, 6, and [get_cubes]
    returns the happi backend's cube 7. *)
Lemma get_cubes_cmip5_overwritten :
  ~ (forall (B : family -> DataFrame -> option unit -> bool -> Py nat (list nat))
            fc c v segs s,
       path_segments fc = Some segs ->
       (In "cmip5" segs ->
          get_cubes B fc c v s = invoke B Cmip5 (to_frame fc) c v s)
       /\ (In "happi" segs ->
          get_cubes B fc c v s = invoke B Happi (to_frame fc) c v s)).
Proof.
  intros H.
  destruct (H two_backends (Frame [both_row]) None true
              ["a"; "cmip5"; "happi"] start eq_refl) as [H5 _].
  assert (In "cmip5" ["a"; "cmip5"; "happi"]) as Hin by segs_in.
  specialize (H5 Hin). vm_compute in H5. discriminate H5.
Qed.

(** C9 on "a/cmip5/happi": both backends are called, cmip5 first, and the
    cube 7 of happi is returned. *)
Lemma get_cubes_later_tag_wins_witness :
  get_cubes two_backends (Frame [both_row]) None true start
    = (Return [7],
       State 2 [Call Cmip5 [both_row] None true;
                Call Happi [both_row] None true])
  /\ exists x s1,
       invoke two_backends Cmip5 [both_row] None true start = (Return x, s1)
       /\ invoke two_backends Happi [both_row] None true s1
            = (Return [7],
               State 2 [Call Cmip5 [both_row] None true;
                        Call Happi [both_row] None true]).
Proof.
  pose proof (get_cubes_later_tag_wins two_backends (Frame [both_row]) None
                true ["a"; "cmip5"; "happi"] start eq_refl) as H.
  destruct H as [E R]; [segs_in | segs_in |].
  split.
  - rewrite E. reflexivity.
  - apply R. reflexivity.
Defined.

(** C8 on "a/cmip6/b". *)
Lemma get_cubes_unknown_family_witness :
  get_cubes two_backends (Frame [cmip6_row]) None true start
    = (Raise (UnboundLocalError "cubes"), start)
  /\ calls (snd (get_cubes two_backends (Frame [cmip6_row]) None true start))
     = [].
Proof.
  apply (get_cubes_unknown_family two_backends (Frame [cmip6_row]) None true
           ["a"; "cmip6"; "b"] start eq_refl); segs_notin.
Defined.

(** C2 on the one-row record with path "a/b/cmip5/c", as a DataFrame. *)
Lemma get_cube_single_row_witness :
  get_cube two_backends (Frame [cmip5_row]) None true start
    = (cubes <~ get_cubes two_backends (Frame [cmip5_row]) None true ;;
       py_lift (getitem0 cubes)) start
  /\ get_cube two_backends (Frame [cmip5_row]) None true start
     = (Return 5, State 1 [Call Cmip5 [cmip5_row] None true]).
Proof.
  destruct (get_cube_single_row two_backends (Frame [cmip5_row]) None true
              start eq_refl) as [E R].
  split; [exact E|].
  apply (R 5 [6]). reflexivity.
Defined.

(** C3 on the empty table and on a table of two rows. *)
Lemma get_cube_row_count_errors_witness :
  get_cube two_backends (Frame []) None true start
    = (Raise (ValueError "Error: no cubes specified in catalogue."), start)
  /\ get_cube two_backends (Frame [cmip5_row; cmip5_row]) None true start
     = (Raise (ValueError
          "Error: more than one cube present.  Try 'get_cubes' instead"),
        start).
Proof.
  split.
  - apply (get_cube_row_count_errors two_backends (Frame []) None true start).
    reflexivity.
  - apply (get_cube_row_count_errors two_backends
             (Frame [cmip5_row; cmip5_row]) None true start).
    unfold nrows. simpl. lia.
Defined.

End GetCubesFacts.

(** ** Properties of the citation generator *)

Module GenDataCitationFacts.
Import GenDataCitation Fixtures.

(** *** Strings *)

Lemma append_assoc (a b c : string) : (a +:+ b) +:+ c = a +:+ b +:+ c.
Proof.
  induction a as [|x a IH]; [reflexivity|].
  change (String x ((a +:+ b) +:+ c) = String x (a +:+ b +:+ c)).
  now f_equal.
Qed.

Lemma append_nil_r (a : string) : a +:+ "" = a.
Proof.
  induction a as [|x a IH]; [reflexivity|].
  change (String x (a +:+ "") = String x a). now f_equal.
Qed.

Lemma occurs_here x post : occurs x (x +:+ post).
Proof. now exists "", post. Qed.

Lemma occurs_end x : occurs x x.
Proof. exists "", "". simpl. now rewrite append_nil_r. Qed.

Lemma occurs_later x p t : occurs x t -> occurs x (p +:+ t).
Proof.
  intros (pre & post & ->). exists (p +:+ pre), post.
  symmetry. apply append_assoc.
Qed.

Create HintDb occurs.
#[local] Hint Resolve occurs_here occurs_end occurs_later : occurs.

(** *** Initials *)

Lemma str_join_dots (cs : list ascii) :
  cs <> [] ->
  str_join "." (map (fun c => String c EmptyString) cs) +:+ "."
  = string_of_list_ascii (flat_map (fun c => [c; "."%char]) cs).
Proof.
  induction cs as [|c cs IH]; [congruence|]. intros _.
  destruct cs as [|d cs]; [reflexivity|].
  change (str_join "." (map (fun c => String c EmptyString) (c :: d :: cs)))
    with (String c EmptyString +:+ "." +:+
          str_join "." (map (fun c => String c EmptyString) (d :: cs))).
  rewrite !append_assoc. rewrite IH by congruence. reflexivity.
Qed.

(** C5, amended. The initials of a given name are its uppercase
    characters, in order, each followed by a period, and a lone period when
    the name has no uppercase character; "Jean-Paul" gives "J.P.". *)
Theorem initials_dotted :
  (forall s,
     initials s =
       match capitals s with
       | [] => "."
       | _ :: _ =>
           string_of_list_ascii
             (flat_map (fun c => [c; "."%char]) (capitals s))
       end)
  /\ initials "Jean-Paul" = "J.P.".
Proof.
  split; [|reflexivity].
  intros s. unfold initials.
  destruct (capitals s) as [|c cs] eqn:E; [reflexivity|].
  apply str_join_dots. discriminate.
Qed.

(** C5 as stated fails on "Jean-Paul": its initials are neither "JP." nor
    the uppercase characters J, P followed by one period. *)
Lemma initials_jean_paul_not_concatenated :
  initials "Jean-Paul" <> "JP."
  /\ initials "Jean-Paul"
     <> string_of_list_ascii (capitals "Jean-Paul") +:+ ".".
Proof. split; vm_compute; discriminate. Qed.

(** C6. The initials of "Jeff" are "J." and the initials of "J.T." are
    "J.T.": one period after each uppercase character, the last one
    included, and nothing doubled. *)
Theorem initials_jeff_jt :
  initials "Jeff" = "J." /\ initials "J.T." = "J.T.".
Proof. split; reflexivity. Qed.

(** *** Loops and comprehensions *)

Lemma comprehension_Forall2 {X Y} (f : X -> result Y) xs ys :
  comprehension f xs = Return ys ->
  Forall2 (fun x y => f x = Return y) xs ys.
Proof.
  revert ys. induction xs as [|x xs IH]; simpl; intros ys H.
  - injection H as <-. constructor.
  - destruct (f x) as [y|e] eqn:E; [|discriminate].
    destruct (comprehension f xs) as [ys'|e]; [|discriminate].
    injection H as <-. constructor; auto.
Qed.

Lemma scan_creator_fields l cr :
  l_givenNames (scan_creator l cr) = l_givenNames l ++ given_of cr
  /\ l_familyNames (scan_creator l cr) = l_familyNames l ++ family_of cr.
Proof.
  unfold scan_creator, given_of, family_of. revert l.
  induction (children cr) as [|x xs IH]; intros l; simpl.
  - now rewrite !app_nil_r.
  - destruct (IH (scan_name l x)) as [-> ->]. unfold scan_name.
    destruct (str_in "givenName" (tag x)); simpl.
    + now rewrite <- app_assoc.
    + destruct (str_in "familyName" (tag x)); simpl;
        [now rewrite <- app_assoc | easy].
Qed.

Lemma scan_creators_fields cs l :
  l_givenNames (fold_left scan_creator cs l)
    = l_givenNames l ++ flat_map given_of cs
  /\ l_familyNames (fold_left scan_creator cs l)
    = l_familyNames l ++ flat_map family_of cs.
Proof.
  revert l. induction cs as [|cr cs IH]; intros l; simpl.
  - now rewrite !app_nil_r.
  - destruct (IH (scan_creator l cr)) as [-> ->].
    destruct (scan_creator_fields l cr) as [-> ->].
    now rewrite <- !app_assoc.
Qed.

(** The name lists after the loop of lines 50-63: what they held before,
    then the names of the creators in document order. *)
Lemma scan_children_names xs l0 l :
  for_each scan_child xs l0 = Return l ->
  l_givenNames l
    = l_givenNames l0
      ++ flat_map given_of (flat_map children (List.filter is_creators xs))
  /\ l_familyNames l
    = l_familyNames l0
      ++ flat_map family_of (flat_map children (List.filter is_creators xs)).
Proof.
  revert l0. induction xs as [|x xs IH]; intros l0; simpl.
  - intros [= <-]. now rewrite !app_nil_r.
  - assert (Hc : is_creators x =
              match is_doi_identifier x with
              | Return false => str_in "creators" (tag x)
              | _ => false
              end) by reflexivity.
    rewrite Hc. clear Hc. unfold scan_child at 1.
    destruct (is_doi_identifier x) as [[|]|e]; try discriminate.
    + intros H. apply IH in H. exact H.
    + destruct (str_in "creators" (tag x)).
      * intros H. apply IH in H. destruct H as [-> ->].
        destruct (scan_creators_fields (children x) l0) as [-> ->].
        simpl. now rewrite !flat_map_app, <- !app_assoc.
      * destruct (str_in "publisher" (tag x));
          [|destruct (str_in "publicationYear" (tag x))];
          intros H; apply IH in H; exact H.
Qed.

Lemma singletons_Forall2 {X Y} (f : X -> list Y) xs :
  Forall (fun x => length (f x) = 1) xs ->
  Forall2 (fun x y => f x = [y]) xs (flat_map f xs).
Proof.
  induction 1 as [|x xs Hx _ IH]; simpl; [constructor|].
  destruct (f x) as [|y [|? ?]] eqn:E; try discriminate.
  simpl. constructor; [exact E | exact IH].
Qed.

Section Facts.

Context {world : Type}.
Context (G : string -> Py world string) (F : string -> result Element).

Implicit Types (mip centre model experiment version : string).
Implicit Types (w : world) (r : CitationRecord) (root : Element).

(** A call that returns went through every step of the body. *)
Lemma generate_citation_inv mip centre model experiment version w r w' :
  generate_citation G F mip centre model experiment version w
    = (Return r, w') ->
  exists xml root l ini nms,
    G (url mip centre model experiment) w = (Return xml, w')
    /\ F xml = Return root
    /\ for_each scan_child (children root) locals0 = Return l
    /\ comprehension initials_of (l_givenNames l) = Return ini
    /\ comprehension display_name (zip (l_familyNames l) ini) = Return nms
    /\ r = Build_CitationRecord mip centre model experiment version
             (l_doi l) (l_publisher l) (l_publicationYear l)
             (l_givenNames l) (l_familyNames l) nms
             (str_join ", " nms
              +:+ (" (" +:+ fmt (l_publicationYear l) +:+ "). " +:+ centre
                   +:+ " " +:+ model +:+ " model output prepared for CMIP6 "
                   +:+ mip +:+ " " +:+ experiment +:+ ". " +:+ version
                   +:+ ". " +:+ fmt (l_publisher l)
                   +:+ ". https://doi.org/" +:+ fmt (l_doi l))).
Proof.
  unfold generate_citation, py_bind, py_lift, py_ret.
  destruct (G (url mip centre model experiment) w) as [[xml|e] w1] eqn:EG;
    [|discriminate].
  destruct (F xml) as [root|e] eqn:EF; [|discriminate].
  destruct (for_each scan_child (children root) locals0) as [l|e] eqn:El;
    [|discriminate].
  destruct (comprehension initials_of (l_givenNames l)) as [ini|e] eqn:Ei;
    [|discriminate].
  destruct (comprehension display_name (zip (l_familyNames l) ini))
    as [nms|e] eqn:En; [|discriminate].
  intros [= <- <-]. exists xml, root, l, ini, nms. repeat split; assumption.
Qed.

(** C4. The citation of every record [generate_citation] returns is the
    joined names followed by the template filled with the captured
    publication year, publisher and doi and the five identity fields, and
    so Centre, Model, MIP, Experiment, Version, the publisher and the
    doi-prefixed URL each occur in it as a substring. *)
Theorem generate_citation_template mip centre model experiment version w r w' :
  generate_citation G F mip centre model experiment version w
    = (Return r, w') ->
  citation r =
    str_join ", " (names r) +:+ " (" +:+ fmt (publicationYear r) +:+ "). "
    +:+ centre +:+ " " +:+ model +:+ " model output prepared for CMIP6 "
    +:+ mip +:+ " " +:+ experiment +:+ ". " +:+ version +:+ ". "
    +:+ fmt (publisher r) +:+ ". https://doi.org/" +:+ fmt (doi r)
  /\ Forall (fun x => occurs x (citation r))
       [centre; model; mip; experiment; version; fmt (publisher r);
        "https://doi.org/" +:+ fmt (doi r)].
Proof.
  intros H. apply generate_citation_inv in H.
  destruct H as (xml & root & l & ini & nms & _ & _ & _ & _ & _ & ->).
  cbn [citation names publicationYear publisher doi].
  split; [reflexivity|].
  repeat constructor.
  1-6: solve [eauto 20 with occurs].
  change (". https://doi.org/" +:+ fmt (l_doi l))
    with (". " +:+ ("https://doi.org/" +:+ fmt (l_doi l))).
  eauto 20 with occurs.
Qed.

(** C7, amended. When every creator element of the parsed document has
    exactly one given name and one family name, a record that
    [generate_citation] returns has one given name, one family name and
    one display name per creator, at the creator's index, and the display
    name is the creator's family name, ", ", and the initials of its given
    name. *)
Theorem generate_citation_paired mip centre model experiment version w xml w1
    root r w' :
  G (url mip centre model experiment) w = (Return xml, w1) ->
  F xml = Return root ->
  generate_citation G F mip centre model experiment version w
    = (Return r, w') ->
  Forall one_name_each (creators_of root) ->
  length (givenNames r) = length (creators_of root)
  /\ length (familyNames r) = length (creators_of root)
  /\ length (names r) = length (creators_of root)
  /\ forall i cr,
       creators_of root !! i = Some cr ->
       exists g f,
         given_of cr = [Some g] /\ family_of cr = [Some f]
         /\ givenNames r !! i = Some (Some g)
         /\ familyNames r !! i = Some (Some f)
         /\ names r !! i = Some (f +:+ ", " +:+ initials g).
Proof.
  intros HG HF H Hpair. apply generate_citation_inv in H.
  destruct H as (xml' & root' & l & ini & nms & HG' & HF' & Hl & Hi & Hn & ->).
  rewrite HG in HG'. injection HG' as <- _. rewrite HF in HF'.
  injection HF' as <-.
  cbn [givenNames familyNames names].
  apply scan_children_names in Hl. cbn [locals0 l_givenNames l_familyNames] in Hl.
  rewrite !app_nil_l in Hl. destruct Hl as [Eg Ef].
  fold (creators_of root) in Eg, Ef.
  assert (Hg2 : Forall2 (fun cr g => given_of cr = [g])
                  (creators_of root) (l_givenNames l)).
  { rewrite Eg. apply singletons_Forall2.
    eapply Forall_impl; [exact Hpair|]. now intros cr []. }
  assert (Hf2 : Forall2 (fun cr f => family_of cr = [f])
                  (creators_of root) (l_familyNames l)).
  { rewrite Ef. apply singletons_Forall2.
    eapply Forall_impl; [exact Hpair|]. now intros cr []. }
  apply comprehension_Forall2 in Hi, Hn.
  pose proof (Forall2_length _ _ _ Hg2) as Lg.
  pose proof (Forall2_length _ _ _ Hf2) as Lf.
  pose proof (Forall2_length _ _ _ Hi) as Li.
  pose proof (Forall2_length _ _ _ Hn) as Ln.
  rewrite length_zip_with in Ln.
  repeat split; try lia.
  intros i cr Hcr.
  destruct (Forall2_lookup_l _ _ _ _ _ Hg2 Hcr) as (g0 & Hg0 & Eg0).
  destruct (Forall2_lookup_l _ _ _ _ _ Hf2 Hcr) as (f0 & Hf0 & Ef0).
  destruct (Forall2_lookup_l _ _ _ _ _ Hi Hg0) as (b & Hb & Eb).
  assert (Hz : zip (l_familyNames l) ini !! i = Some (f0, b)).
  { rewrite lookup_zip_with, Hf0. simpl. now rewrite Hb. }
  destruct (Forall2_lookup_l _ _ _ _ _ Hn Hz) as (n & Hn0 & En).
  destruct g0 as [g|]; [|discriminate]. injection Eb as <-.
  unfold display_name in En. cbn [fst snd] in En.
  destruct f0 as [f|]; [|discriminate]. injection En as <-.
  exists g, f. repeat split; assumption.
Qed.

(** The loop of lines 96-101 started with [acc] in [results]. *)
Lemma collect_row_by_row df acc w out w' :
  collect G F df acc w = (Return out, w') <->
  exists out1, out = acc ++ out1 /\ row_by_row G F df w out1 w'.
Proof.
  revert acc w. induction df as [|row df IH]; intros acc w.
  - cbn [collect]. unfold py_ret. split.
    + intros [= <- <-]. exists []. now rewrite app_nil_r.
    + intros (out1 & -> & H). destruct out1; [|contradiction].
      cbn in H. subst. now rewrite app_nil_r.
  - cbn [collect]. unfold py_bind at 1. split.
    + destruct (generate_citation G F (row_MIP row) (row_Centre row)
                  (row_Model row) (row_Experiment row) (row_Version row) w)
        as [[c|e] w1] eqn:E; [|discriminate].
      intros H. apply IH in H. destruct H as (out1 & -> & H).
      exists (c :: out1). split; [now rewrite <- app_assoc|].
      cbn [row_by_row]. exists w1. now split.
    + intros (out1 & -> & H). destruct out1 as [|c out1]; [contradiction|].
      cbn [row_by_row] in H. destruct H as (w1 & E & H). rewrite E.
      apply IH. exists out1. split; [now rewrite <- app_assoc | exact H].
Qed.

Lemma row_by_row_lookup df w out w' :
  row_by_row G F df w out w' ->
  length out = length df
  /\ forall i row,
       df !! i = Some row ->
       exists c wi wi',
         out !! i = Some c
         /\ generate_citation G F (row_MIP row) (row_Centre row)
              (row_Model row) (row_Experiment row) (row_Version row) wi
            = (Return c, wi').
Proof.
  revert w out. induction df as [|row df IH]; intros w [|c out] H;
    try contradiction.
  - split; [reflexivity|]. intros i row Hi. now rewrite lookup_nil in Hi.
  - cbn [row_by_row] in H. destruct H as (w1 & E & H).
    apply IH in H. destruct H as [L P]. split; [simpl; now rewrite L|].
    intros [|i] row' Hi.
    + injection Hi as <-. now exists c, w, w1.
    + apply (P i row' Hi).
Qed.

(** C10. [df_to_citations] returns a table exactly when the direct calls
    of [generate_citation] on the rows, made in row order, all return, and
    the table then holds their records in that order: it has as many rows
    as the input, and its i-th row is the record the call on the i-th
    input row returned. *)
Theorem df_to_citations_row_by_row df w out w' :
  (df_to_citations G F df w = (Return out, w') <->
   row_by_row G F df w out w')
  /\ (df_to_citations G F df w = (Return out, w') ->
      length out = length df
      /\ forall i row,
           df !! i = Some row ->
           exists c wi wi',
             out !! i = Some c
             /\ generate_citation G F (row_MIP row) (row_Centre row)
                  (row_Model row) (row_Experiment row) (row_Version row) wi
                = (Return c, wi')).
Proof.
  assert (E : df_to_citations G F df w = (Return out, w') <->
              row_by_row G F df w out w').
  { unfold df_to_citations. rewrite collect_row_by_row. split.
    - now intros (out1 & -> & H).
    - intros H. now exists out. }
  split; [exact E|].
  intros H. apply E in H. now apply row_by_row_lookup in H.
Qed.

End Facts.

(** C4 on the example of the docstring. *)
Lemma generate_citation_template_witness :
  citation hadgem_record =
    str_join ", " (names hadgem_record) +:+ " ("
    +:+ fmt (publicationYear hadgem_record) +:+ "). "
    +:+ "MOHC" +:+ " " +:+ "HadGEM3-GC31-LL"
    +:+ " model output prepared for CMIP6 "
    +:+ "CMIP" +:+ " " +:+ "historical" +:+ ". " +:+ "v20190624" +:+ ". "
    +:+ fmt (publisher hadgem_record) +:+ ". https://doi.org/"
    +:+ fmt (doi hadgem_record)
  /\ Forall (fun x => occurs x (citation hadgem_record))
       ["MOHC"; "HadGEM3-GC31-LL"; "CMIP"; "historical"; "v20190624";
        fmt (publisher hadgem_record);
        "https://doi.org/" +:+ fmt (doi hadgem_record)].
Proof.
  apply (generate_citation_template one_body (parsed_as hadgem)
           "CMIP" "MOHC" "HadGEM3-GC31-LL" "historical" "v20190624"
           0 hadgem_record 1).
  vm_compute. reflexivity.
Defined.

(** C7 as stated fails on a document whose only creator has a given name
    and no family name: the record returned has one given name and no
    family name. *)
Lemma generate_citation_unpaired :
  ~ (forall (G : string -> Py nat string) (F : string -> result Element)
            mip centre model experiment version w r w',
       generate_citation G F mip centre model experiment version w
         = (Return r, w') ->
       length (givenNames r) = length (familyNames r)
       /\ forall xml w1 root,
            G (url mip centre model experiment) w = (Return xml, w1) ->
            F xml = Return root ->
            length (names r) = length (creators_of root)).
Proof.
  intros H.
  destruct (generate_citation one_body (parsed_as mononym)
              "CMIP" "MOHC" "HadGEM3-GC31-LL" "historical" "v20190624" 0)
    as [[r|e] w'] eqn:E; [|vm_compute in E; discriminate E].
  destruct (H _ _ _ _ _ _ _ _ _ _ E) as [L _].
  vm_compute in E. injection E as <- _. discriminate L.
Qed.

(** C7 on the example of the docstring, with its five creators. *)
Lemma generate_citation_paired_witness :
  length (givenNames hadgem_record) = length (creators_of hadgem)
  /\ length (familyNames hadgem_record) = length (creators_of hadgem)
  /\ length (names hadgem_record) = length (creators_of hadgem)
  /\ forall i cr,
       creators_of hadgem !! i = Some cr ->
       exists g f,
         given_of cr = [Some g] /\ family_of cr = [Some f]
         /\ givenNames hadgem_record !! i = Some (Some g)
         /\ familyNames hadgem_record !! i = Some (Some f)
         /\ names hadgem_record !! i = Some (f +:+ ", " +:+ initials g).
Proof.
  apply (generate_citation_paired one_body (parsed_as hadgem)
           "CMIP" "MOHC" "HadGEM3-GC31-LL" "historical" "v20190624"
           0 "<resource/>" 1 hadgem hadgem_record 1).
  - reflexivity.
  - reflexivity.
  - vm_compute. reflexivity.
  - vm_compute. repeat constructor.
Defined.

(** C10 on a table of two rows. *)
Lemma df_to_citations_row_by_row_witness :
  row_by_row one_body (parsed_as hadgem) [hadgem_row; ssp_row] 0
    [hadgem_record; ssp_record] 2
  /\ length [hadgem_record; ssp_record] = length [hadgem_row; ssp_row]
  /\ forall i row,
       [hadgem_row; ssp_row] !! i = Some row ->
       exists c wi wi',
         [hadgem_record; ssp_record] !! i = Some c
         /\ generate_citation one_body (parsed_as hadgem) (row_MIP row)
              (row_Centre row) (row_Model row) (row_Experiment row)
              (row_Version row) wi
            = (Return c, wi').
Proof.
  destruct (df_to_citations_row_by_row one_body (parsed_as hadgem)
              [hadgem_row; ssp_row] 0 [hadgem_record; ssp_record] 2)
    as [E R].
  assert (H : df_to_citations one_body (parsed_as hadgem)
                [hadgem_row; ssp_row] 0
              = (Return [hadgem_record; ssp_record], 2)).
  { vm_compute. reflexivity. }
  split; [apply E, H | apply (R H)].
Defined.

End GenDataCitationFacts.

(** ** Edge cases of the dispatcher *)

Module GetCubesEdges.
Import GetCubes Fixtures EdgeFixtures GetCubesFacts.

(** *** Splitting a path *)

Lemma re_split_nonempty sep s : re_split sep s <> [].
Proof.
  destruct s as [|c s]; cbn [re_split]; [discriminate|].
  destruct (Ascii.eqb c sep); [discriminate|].
  destruct (re_split sep s); discriminate.
Qed.

Lemma str_join_cons sep x y ys :
  str_join sep (x :: y :: ys) = x +:+ sep +:+ str_join sep (y :: ys).
Proof. reflexivity. Qed.

Lemma re_split_join sep s :
  str_join (String sep EmptyString) (re_split sep s) = s.
Proof.
  induction s as [|c s IH]; [reflexivity|].
  cbn [re_split]. pose proof (re_split_nonempty sep s) as Hne.
  destruct (Ascii.eqb_spec c sep) as [->|Hc].
  - destruct (re_split sep s) as [|w ws]; [congruence|].
    rewrite str_join_cons, IH. reflexivity.
  - destruct (re_split sep s) as [|w ws]; [congruence|].
    destruct ws as [|w' ws].
    + cbn [str_join] in *. now rewrite IH.
    + rewrite str_join_cons in *. rewrite <- IH. reflexivity.
Qed.

Lemma re_split_free sep s : Forall (free_of sep) (re_split sep s).
Proof.
  induction s as [|c s IH]; cbn [re_split].
  - constructor; [|constructor]. intros [].
  - destruct (Ascii.eqb_spec c sep) as [->|Hc].
    + constructor; [intros [] | exact IH].
    + destruct (re_split sep s) as [|w ws].
      * constructor; [|constructor]. intros [E|[]]. congruence.
      * inversion IH as [|? ? Hw Hws]; subst. constructor; [|exact Hws].
        intros [E|Hin]; [congruence | exact (Hw Hin)].
Qed.

Lemma re_split_one sep w : free_of sep w -> re_split sep w = [w].
Proof.
  induction w as [|c w IH]; intros Hw; [reflexivity|].
  cbn [re_split]. destruct (Ascii.eqb_spec c sep) as [->|Hc].
  - exfalso. apply Hw. now left.
  - rewrite IH; [reflexivity|]. intros Hin. apply Hw. now right.
Qed.

Lemma re_split_app sep w rest :
  free_of sep w ->
  re_split sep (w +:+ String sep rest) = w :: re_split sep rest.
Proof.
  induction w as [|c w IH]; intros Hw.
  - change (re_split sep (String sep rest) = "" :: re_split sep rest).
    cbn [re_split]. now rewrite Ascii.eqb_refl.
  - change (re_split sep (String c (w +:+ String sep rest))
            = String c w :: re_split sep rest).
    cbn [re_split]. destruct (Ascii.eqb_spec c sep) as [->|Hc].
    + exfalso. apply Hw. now left.
    + rewrite IH; [reflexivity|]. intros Hin. apply Hw. now right.
Qed.

Lemma re_split_of_join sep segs :
  segs <> [] -> Forall (free_of sep) segs ->
  re_split sep (str_join (String sep EmptyString) segs) = segs.
Proof.
  induction segs as [|w ws IH]; [congruence|]. intros _ H.
  inversion H as [|? ? Hw Hws]; subst.
  destruct ws as [|w' ws]; [now apply re_split_one|].
  rewrite str_join_cons.
  change (String sep "" +:+ str_join (String sep "") (w' :: ws))
    with (String sep (str_join (String sep "") (w' :: ws))).
  rewrite re_split_app by assumption. now rewrite IH.
Qed.

(** X1. Line 14 always succeeds on a string and loses nothing: the
    segments are at least one, none of them holds a slash, and joining
    them with "/" gives back the path. *)
Theorem split_path_join s :
  exists segs,
    split_path (Str s) = Return segs
    /\ segs <> []
    /\ Forall (free_of "/") segs
    /\ str_join "/" segs = s.
Proof.
  exists (re_split "/" s). repeat split.
  - apply re_split_nonempty.
  - apply re_split_free.
  - apply re_split_join.
Qed.

(** X2. A path made by joining slash-free segments with "/" is split by
    line 14 into exactly those segments. *)
Theorem split_path_of_join segs :
  segs <> [] -> Forall (free_of "/") segs ->
  split_path (Str (str_join "/" segs)) = Return segs.
Proof.
  intros Hne Hfree. unfold split_path. f_equal.
  now apply re_split_of_join.
Qed.

(** *** Failures and the call log *)

Section Edges.

Context {cube constraint world : Type}.
Context (B : family -> DataFrame -> option constraint -> bool
             -> Py world (list cube)).

Implicit Types (fc : catalogue) (c : option constraint) (v : bool).
Implicit Types (s : state constraint world).

(** What the log holds after one backend call. *)
Lemma invoke_step f (df : DataFrame) c v s r w :
  B f df c v (ext s) = (r, w) ->
  invoke B f df c v s = (r, State w (calls s ++ [Call f df c v])).
Proof. intros H. unfold invoke. now rewrite H. Qed.

(** With one row, [get_cube] fails as [get_cubes] does and otherwise
    reads element 0. *)
Lemma get_cube_one_row fc c v s :
  nrows fc = 1 ->
  get_cube B fc c v s =
    match get_cubes B fc c v s with
    | (Return cubes, s') => (getitem0 cubes, s')
    | (Raise e, s') => (Raise e, s')
    end.
Proof.
  unfold nrows, get_cube. intros Hn. rewrite Hn.
  cbn [Nat.eqb Nat.ltb Nat.leb]. unfold py_bind, py_lift, py_ret.
  rewrite get_cubes_to_frame.
  destruct (get_cubes B fc c v s) as [[cubes|e] s1]; [|reflexivity].
  destruct cubes; reflexivity.
Qed.

(** X3. [get_cubes] fails before any backend is called when the first
    row's path cannot be read: an empty table raises [IndexError], a first
    row without a [Path] column raises [KeyError], and a [Path] that is
    not a string raises [TypeError]. *)
Theorem get_cubes_unreadable_first_row fc c v s :
  (to_frame fc = [] -> get_cubes B fc c v s = (Raise IndexError, s))
  /\ (forall row rest,
        to_frame fc = row :: rest -> row !! "Path" = None ->
        get_cubes B fc c v s = (Raise (KeyError "Path"), s))
  /\ (forall row rest p,
        to_frame fc = row :: rest -> row !! "Path" = Some p ->
        (forall str, p <> Str str) ->
        get_cubes B fc c v s = (Raise TypeError, s)).
Proof.
  unfold get_cubes. cbv zeta. repeat split.
  - intros ->. reflexivity.
  - intros row rest -> Hp. unfold py_bind at 1. unfold py_lift at 1.
    cbn [iloc0 getitem0]. unfold py_bind at 1. unfold py_lift at 1, getitem.
    now rewrite Hp.
  - intros row rest p -> Hp Hstr. unfold py_bind at 1. unfold py_lift at 1.
    cbn [iloc0 getitem0]. unfold py_bind at 1. unfold py_lift at 1, getitem.
    rewrite Hp. unfold py_bind at 1. unfold py_lift at 1.
    destruct p as [str| |]; [now destruct (Hstr str) | reflexivity..].
Qed.

(** A record without readable path segments leaves the state alone. *)
Lemma get_cubes_no_segments fc c v s :
  path_segments fc = None -> snd (get_cubes B fc c v s) = s.
Proof.
  unfold path_segments, get_cubes. cbv zeta.
  destruct (to_frame fc) as [|row rest]; [reflexivity|].
  unfold py_bind at 1. unfold py_lift at 1. cbn [iloc0 getitem0].
  unfold py_bind at 1. unfold py_lift at 1, getitem.
  destruct (row !! "Path") as [[str| |]|]; try discriminate; reflexivity.
Qed.

(** X4. Whatever the record, [get_cubes] calls the backends at most
    twice, cmip5 before happi and each at most once, and every call
    passes the whole record as a DataFrame together with the caller's
    constraints and verbosity. *)
Theorem get_cubes_call_log fc c v s :
  exists new,
    calls (snd (get_cubes B fc c v s)) = calls s ++ new
    /\ Forall (fun k => call_filt_cat _ k = to_frame fc
                       /\ call_constraints _ k = c
                       /\ call_verbose _ k = v) new
    /\ (map (call_family _) new = []
        \/ map (call_family _) new = [Cmip5]
        \/ map (call_family _) new = [Happi]
        \/ map (call_family _) new = [Cmip5; Happi]).
Proof.
  destruct (path_segments fc) as [segs|] eqn:Hseg.
  - rewrite (get_cubes_on_segments B fc c v segs s Hseg).
    unfold py_bind, py_ret, py_raise, invoke.
    destruct (list_in "cmip5" segs), (list_in "happi" segs).
    + destruct (B Cmip5 (to_frame fc) c v (ext s)) as [[x|e] w1]; cbn [ext calls].
      * destruct (B Happi (to_frame fc) c v w1) as [[y|e] w2];
          exists [Call Cmip5 (to_frame fc) c v; Call Happi (to_frame fc) c v];
          cbn [snd calls]; rewrite <- app_assoc;
          (split; [reflexivity|]); (split; [repeat constructor|]);
          cbn; tauto.
      * exists [Call Cmip5 (to_frame fc) c v]. cbn [snd calls].
        split; [reflexivity|]. split; [repeat constructor|]. cbn; tauto.
    + destruct (B Cmip5 (to_frame fc) c v (ext s)) as [[x|e] w1];
        exists [Call Cmip5 (to_frame fc) c v]; cbn [snd calls];
        (split; [reflexivity|]); (split; [repeat constructor|]); cbn; tauto.
    + destruct (B Happi (to_frame fc) c v (ext s)) as [[x|e] w1];
        exists [Call Happi (to_frame fc) c v]; cbn [snd calls];
        (split; [reflexivity|]); (split; [repeat constructor|]); cbn; tauto.
    + exists []. cbn [snd]. rewrite app_nil_r.
      split; [reflexivity|]. split; [constructor|]. cbn; tauto.
  - rewrite (get_cubes_no_segments fc c v s Hseg). exists [].
    rewrite app_nil_r. split; [reflexivity|]. split; [constructor|].
    cbn; tauto.
Qed.

(** X5. An exception of the cmip5 backend leaves [get_cubes] as it is:
    the happi backend is not called, also when the path holds the happi
    tag. *)
Theorem get_cubes_cmip5_failure fc c v segs s e w :
  path_segments fc = Some segs ->
  In "cmip5" segs ->
  B Cmip5 (to_frame fc) c v (ext s) = (Raise e, w) ->
  get_cubes B fc c v s
    = (Raise e, State w (calls s ++ [Call Cmip5 (to_frame fc) c v])).
Proof.
  intros Hseg H5 HB. rewrite (get_cubes_on_segments B fc c v segs s Hseg).
  apply list_in_In in H5. rewrite H5. unfold py_bind at 1 2.
  now rewrite (invoke_step Cmip5 (to_frame fc) c v s _ _ HB).
Qed.

(** X6. For a record of one row whose path holds the cmip5 tag and not
    the happi tag, [get_cube] makes the one cmip5 call and returns the
    first cube of the sequence the backend returned; further cubes are
    dropped. *)
Theorem get_cube_first_cube fc c v segs s x rest w :
  nrows fc = 1 ->
  path_segments fc = Some segs ->
  In "cmip5" segs -> ~ In "happi" segs ->
  B Cmip5 (to_frame fc) c v (ext s) = (Return (x :: rest), w) ->
  get_cube B fc c v s
    = (Return x, State w (calls s ++ [Call Cmip5 (to_frame fc) c v])).
Proof.
  intros Hn Hseg H5 Hh HB. rewrite (get_cube_one_row fc c v s Hn).
  rewrite (get_cubes_on_segments B fc c v segs s Hseg).
  apply list_in_In in H5. apply list_in_not_In in Hh. rewrite H5, Hh.
  unfold py_bind, py_ret.
  now rewrite (invoke_step Cmip5 (to_frame fc) c v s _ _ HB).
Qed.

(** X7. For a record of one row, an exception of [get_cubes] leaves
    [get_cube] unchanged, and an empty sequence returned by [get_cubes]
    makes [get_cube] raise [IndexError]. *)
Theorem get_cube_one_row_failures fc c v s :
  nrows fc = 1 ->
  (forall e s', get_cubes B fc c v s = (Raise e, s') ->
                get_cube B fc c v s = (Raise e, s'))
  /\ (forall s', get_cubes B fc c v s = (Return [], s') ->
                 get_cube B fc c v s = (Raise IndexError, s')).
Proof.
  intros Hn. rewrite (get_cube_one_row fc c v s Hn).
  split; intros; now rewrite H.
Qed.

(** X8. For a record of one row whose path holds neither tag, [get_cube]
    raises the [UnboundLocalError] of [get_cubes] and calls no backend. *)
Theorem get_cube_unknown_family fc c v segs s :
  nrows fc = 1 ->
  path_segments fc = Some segs ->
  ~ In "cmip5" segs -> ~ In "happi" segs ->
  get_cube B fc c v s = (Raise (UnboundLocalError "cubes"), s).
Proof.
  intros Hn Hseg H5 Hh. rewrite (get_cube_one_row fc c v s Hn).
  rewrite (get_cubes_on_segments B fc c v segs s Hseg).
  apply list_in_not_In in H5, Hh. now rewrite H5, Hh.
Qed.

End Edges.

Ltac slash_free :=
  repeat constructor; unfold free_of; simpl; intros H; decompose [or] H;
  discriminate || contradiction.

(** X2 on the segments a, b, cmip5, c. *)
Lemma split_path_of_join_witness :
  split_path (Str (str_join "/" ["a"; "b"; "cmip5"; "c"]))
    = Return ["a"; "b"; "cmip5"; "c"].
Proof. apply split_path_of_join; [discriminate | slash_free]. Defined.

(** X3 on the empty table, on a Series without [Path], and on a row whose
    [Path] is the number 3. *)
Lemma get_cubes_unreadable_first_row_witness :
  get_cubes two_backends (Frame []) None true start
    = (Raise IndexError, start)
  /\ get_cubes two_backends (Series pathless_row) None true start
     = (Raise (KeyError "Path"), start)
  /\ get_cubes two_backends (Frame [numeric_path_row; cmip5_row]) None true
       start
     = (Raise TypeError, start).
Proof.
  split; [|split].
  - apply (get_cubes_unreadable_first_row two_backends (Frame []) None true
             start). reflexivity.
  - apply (proj1 (proj2 (get_cubes_unreadable_first_row two_backends
             (Series pathless_row) None true start)) pathless_row []);
      reflexivity.
  - apply (proj2 (proj2 (get_cubes_unreadable_first_row two_backends
             (Frame [numeric_path_row; cmip5_row]) None true start))
             numeric_path_row [cmip5_row] (Num 3));
      [reflexivity | reflexivity | discriminate].
Defined.

(** X5 on the path "a/cmip5/happi" with a failing cmip5 backend. *)
Lemma get_cubes_cmip5_failure_witness :
  get_cubes cmip5_down (Frame [both_row]) None true start
    = (Raise (OtherError "cmip5 archive offline"),
       State 1 [Call Cmip5 [both_row] None true]).
Proof.
  apply (get_cubes_cmip5_failure cmip5_down (Frame [both_row]) None true
           ["a"; "cmip5"; "happi"] start); [reflexivity | segs_in | reflexivity].
Defined.

(** X6 on the Series with path "a/b/cmip5/c". *)
Lemma get_cube_first_cube_witness :
  get_cube two_backends (Series cmip5_row) None true start
    = (Return 5, State 1 [Call Cmip5 [cmip5_row] None true]).
Proof.
  apply (get_cube_first_cube two_backends (Series cmip5_row) None true
           ["a"; "b"; "cmip5"; "c"] start 5 [6] 1);
    [reflexivity | reflexivity | segs_in | segs_notin | reflexivity].
Defined.

(** X7 on the row with path "a/b/cmip5/c", with a failing backend and
    with a backend that finds nothing. *)
Lemma get_cube_one_row_failures_witness :
  get_cube cmip5_down (Frame [cmip5_row]) None true start
    = (Raise (OtherError "cmip5 archive offline"),
       State 1 [Call Cmip5 [cmip5_row] None true])
  /\ get_cube no_cubes (Frame [cmip5_row]) None true start
     = (Raise IndexError, State 1 [Call Cmip5 [cmip5_row] None true]).
Proof.
  split.
  - apply (proj1 (get_cube_one_row_failures cmip5_down (Frame [cmip5_row])
             None true start eq_refl)). reflexivity.
  - apply (proj2 (get_cube_one_row_failures no_cubes (Frame [cmip5_row])
             None true start eq_refl)). reflexivity.
Defined.

(** X8 on the row with path "a/cmip6/b". *)
Lemma get_cube_unknown_family_witness :
  get_cube two_backends (Frame [cmip6_row]) None true start
    = (Raise (UnboundLocalError "cubes"), start).
Proof.
  apply (get_cube_unknown_family two_backends (Frame [cmip6_row]) None true
           ["a"; "cmip6"; "b"] start);
    [reflexivity | reflexivity | segs_notin | segs_notin].
Defined.

End GetCubesEdges.

(** ** Edge cases of the citation generator *)

Module GenDataCitationEdges.
Import GenDataCitation Fixtures EdgeFixtures GenDataCitationFacts.

(** *** Substring tests *)

Lemma prefix_occurs a s :
  String.prefix a s = true <-> exists post, s = a +:+ post.
Proof.
  revert s. induction a as [|x a IH]; intros s.
  - split; [intros _; now exists s | intros _; now destruct s].
  - destruct s as [|y s]; cbn [String.prefix].
    + split; [discriminate | intros [post H]; discriminate H].
    + destruct (ascii_dec x y) as [->|Hxy].
      * rewrite IH. split; intros [post H]; exists post.
        -- now rewrite H.
        -- now injection H.
      * split; [discriminate|]. intros [post H]. injection H as E _.
        congruence.
Qed.

(** The model of [sub in s] is substring containment. *)
Lemma str_in_occurs sub s : str_in sub s = true <-> occurs sub s.
Proof.
  split.
  - induction s as [|c s IH]; cbn [str_in]; rewrite orb_true_iff.
    + intros [H|H]; [|discriminate]. apply prefix_occurs in H.
      destruct H as [post ->]. apply occurs_here.
    + intros [H|H].
      * apply prefix_occurs in H. destruct H as [post ->]. apply occurs_here.
      * destruct (IH H) as (pre & post & ->). now exists (String c pre), post.
  - intros (pre & post & ->). induction pre as [|c pre IH].
    + change (str_in sub (sub +:+ post) = true).
      assert (String.prefix sub (sub +:+ post) = true) as Hp
        by (apply prefix_occurs; now exists post).
      destruct (sub +:+ post); cbn [str_in]; now rewrite Hp.
    + change (str_in sub (String c (pre +:+ sub +:+ post)) = true).
      cbn [str_in]. rewrite IH. apply orb_true_r.
Qed.

Lemma str_in_not_occurs sub s : str_in sub s = false <-> ~ occurs sub s.
Proof.
  rewrite <- str_in_occurs. destruct (str_in sub s); split; congruence.
Qed.

(** X9. The children of a creator are sorted by substring tests on the
    tag, given name first: an element whose tag holds "givenName"
    anywhere, as a namespaced tag does, adds its text to [givenNames];
    one whose tag holds "familyName" and not "givenName" adds its text to
    [familyNames]; any other element changes nothing. *)
Theorem scan_name_by_substring l x :
  (occurs "givenName" (tag x) ->
     scan_name l x
     = Locals (l_doi l) (l_publisher l) (l_publicationYear l)
         (l_givenNames l ++ [text x]) (l_familyNames l))
  /\ (~ occurs "givenName" (tag x) -> occurs "familyName" (tag x) ->
     scan_name l x
     = Locals (l_doi l) (l_publisher l) (l_publicationYear l)
         (l_givenNames l) (l_familyNames l ++ [text x]))
  /\ (~ occurs "givenName" (tag x) -> ~ occurs "familyName" (tag x) ->
     scan_name l x = l).
Proof.
  unfold scan_name. repeat split.
  - intros Hg. apply str_in_occurs in Hg. now rewrite Hg.
  - intros Hg Hf. apply str_in_not_occurs in Hg. apply str_in_occurs in Hf.
    now rewrite Hg, Hf.
  - intros Hg Hf. apply str_in_not_occurs in Hg, Hf. now rewrite Hg, Hf.
Qed.

(** *** Initials *)

Lemma capitals_upper s : Forall (fun c => isupper c = true) (capitals s).
Proof.
  unfold capitals. induction (list_ascii_of_string s) as [|c cs IH];
    cbn [List.filter]; [constructor|].
  destruct (isupper c) eqn:E; [constructor; assumption | assumption].
Qed.

Lemma filter_dotted cs :
  Forall (fun c => isupper c = true) cs ->
  List.filter isupper (flat_map (fun c => [c; "."%char]) cs) = cs.
Proof.
  induction 1 as [|c cs Hc _ IH]; [reflexivity|].
  cbn [flat_map app List.filter]. rewrite Hc.
  change (isupper ".") with false. cbn iota. now rewrite IH.
Qed.

Lemma capitals_initials s : capitals (initials s) = capitals s.
Proof.
  unfold initials. destruct (capitals s) as [|c cs] eqn:E; [reflexivity|].
  rewrite str_join_dots by discriminate. unfold capitals at 1.
  rewrite list_ascii_of_string_of_list_ascii. rewrite <- E.
  apply filter_dotted, capitals_upper.
Qed.

(** X10. Formatting is idempotent: the initials of a string that is
    already a result of the formatting are that string. *)
Theorem initials_idempotent s : initials (initials s) = initials s.
Proof.
  unfold initials at 1. rewrite capitals_initials. reflexivity.
Qed.

(** *** The loop over the children of the root *)

Lemma scan_child_raise l child e :
  scan_child l child = Raise e ->
  e = KeyError "identifierType" /\ lacks_identifier_type child.
Proof.
  unfold scan_child, is_doi_identifier, lacks_identifier_type.
  destruct (str_in "identifier" (tag child)).
  - destruct (attrib child !! "identifierType") as [t|].
    + destruct (String.eqb t "DOI"); [discriminate|].
      destruct (str_in "creators" (tag child)); [discriminate|].
      destruct (str_in "publisher" (tag child)); [discriminate|].
      destruct (str_in "publicationYear" (tag child)); discriminate.
    + intros [= <-]. now split.
  - destruct (str_in "creators" (tag child)); [discriminate|].
    destruct (str_in "publisher" (tag child)); [discriminate|].
    destruct (str_in "publicationYear" (tag child)); discriminate.
Qed.

Lemma scan_child_lacks l child :
  lacks_identifier_type child ->
  scan_child l child = Raise (KeyError "identifierType").
Proof.
  unfold scan_child, is_doi_identifier. intros [-> ->]. reflexivity.
Qed.

Lemma for_each_scan_lacks xs l0 :
  Exists lacks_identifier_type xs ->
  for_each scan_child xs l0 = Raise (KeyError "identifierType").
Proof.
  revert l0. induction xs as [|x xs IH]; intros l0 H; [inversion H|].
  cbn [for_each]. destruct (scan_child l0 x) as [l1|e] eqn:E.
  - apply IH. inversion H as [? ? Hx|? ? Hxs]; subst; [|assumption].
    rewrite (scan_child_lacks l0 x Hx) in E. discriminate.
  - apply scan_child_raise in E. destruct E as [-> _]. reflexivity.
Qed.

Lemma for_each_scan_ok xs l0 :
  Forall (fun child => ~ lacks_identifier_type child) xs ->
  exists l, for_each scan_child xs l0 = Return l.
Proof.
  revert l0. induction xs as [|x xs IH]; intros l0 H; [now exists l0|].
  inversion H as [|? ? Hx Hxs]; subst. cbn [for_each].
  destruct (scan_child l0 x) as [l1|e] eqn:E; [now apply IH|].
  apply scan_child_raise in E. now destruct E.
Qed.

Lemma scan_creators_scalars cs l :
  l_doi (fold_left scan_creator cs l) = l_doi l
  /\ l_publisher (fold_left scan_creator cs l) = l_publisher l
  /\ l_publicationYear (fold_left scan_creator cs l) = l_publicationYear l.
Proof.
  assert (Hn : forall xs l0,
    l_doi (fold_left scan_name xs l0) = l_doi l0
    /\ l_publisher (fold_left scan_name xs l0) = l_publisher l0
    /\ l_publicationYear (fold_left scan_name xs l0) = l_publicationYear l0).
  { induction xs as [|x xs IH]; intros l0; cbn [fold_left]; [easy|].
    destruct (IH (scan_name l0 x)) as (-> & -> & ->). unfold scan_name.
    destruct (str_in "givenName" (tag x)); [easy|].
    destruct (str_in "familyName" (tag x)); easy. }
  revert l. induction cs as [|cr cs IH]; intros l; cbn [fold_left]; [easy|].
  destruct (IH (scan_creator l cr)) as (-> & -> & ->). apply Hn.
Qed.

Lemma last_text_cons d x (ys : list Element) :
  last_text d (x :: ys) = last_text (text x) ys.
Proof.
  unfold last_text. rewrite last_cons. now destruct (last ys).
Qed.

(** The three scalars after the loop of lines 50-63: the text of the last
    child of their kind, or what they held before. *)
Lemma scan_children_scalars xs l0 l :
  for_each scan_child xs l0 = Return l ->
  l_doi l = last_text (l_doi l0) (List.filter is_doi xs)
  /\ l_publisher l = last_text (l_publisher l0) (List.filter is_publisher xs)
  /\ l_publicationYear l
     = last_text (l_publicationYear l0) (List.filter is_publicationYear xs).
Proof.
  revert l0. induction xs as [|x xs IH]; intros l0; cbn [for_each List.filter].
  - now intros [= <-].
  - unfold scan_child at 1, is_doi at 1, is_publisher at 1,
      is_publicationYear at 1.
    destruct (is_doi_identifier x) as [[|]|e]; [| |discriminate].
    + intros H. apply IH in H. cbn [l_doi l_publisher l_publicationYear] in H.
      now rewrite last_text_cons.
    + destruct (str_in "creators" (tag x)); cbn [negb andb].
      { intros H. apply IH in H.
        destruct (scan_creators_scalars (children x) l0) as (Ed & Ep & Ey).
        now rewrite Ed, Ep, Ey in H. }
      destruct (str_in "publisher" (tag x)); cbn [negb andb].
      { intros H. apply IH in H.
        cbn [l_doi l_publisher l_publicationYear] in H.
        now rewrite last_text_cons. }
      destruct (str_in "publicationYear" (tag x)).
      { intros H. apply IH in H.
        cbn [l_doi l_publisher l_publicationYear] in H.
        now rewrite last_text_cons. }
      intros H. now apply IH in H.
Qed.

Lemma for_each_unmatched xs l0 :
  Forall unmatched xs -> for_each scan_child xs l0 = Return l0.
Proof.
  induction 1 as [|x xs (Hd & Hc & Hp & Hy) _ IH]; [reflexivity|].
  cbn [for_each]. unfold scan_child. now rewrite Hd, Hc, Hp, Hy.
Qed.

Lemma comprehension_initials_None gs :
  In None gs -> comprehension initials_of gs = Raise TypeError.
Proof.
  induction gs as [|g gs IH]; [intros []|]. intros H. cbn [comprehension].
  destruct g as [g|]; [|reflexivity]. cbn [initials_of].
  destruct H as [H|H]; [discriminate|]. now rewrite IH.
Qed.

(** *** The whole call *)

Section Edges.

Context {world : Type}.
Context (G : string -> Py world string) (F : string -> result Element).

Implicit Types (mip centre model experiment version : string).
Implicit Types (w : world) (r : CitationRecord) (root : Element).

(** Once the request is answered and the answer parsed, the call is the
    building of the record from the document. *)
Lemma generate_citation_fetched mip centre model experiment version w xml w1
    root :
  G (url mip centre model experiment) w = (Return xml, w1) ->
  F xml = Return root ->
  generate_citation G F mip centre model experiment version w
    = (record_of mip centre model experiment version root, w1).
Proof.
  intros HG HF. unfold generate_citation, record_of, py_bind, py_lift, py_ret.
  rewrite HG, HF.
  destruct (for_each scan_child (children root) locals0) as [l|e];
    [|reflexivity].
  destruct (comprehension initials_of (l_givenNames l)) as [ini|e];
    [|reflexivity].
  destruct (comprehension display_name (zip (l_familyNames l) ini));
    reflexivity.
Qed.

(** X11. When a child of the root has "identifier" in its tag and no
    [identifierType] attribute, [generate_citation] raises the [KeyError]
    of line 51, wherever the child stands and whatever else the document
    holds. *)
Theorem generate_citation_untyped_identifier mip centre model experiment
    version w xml w1 root :
  G (url mip centre model experiment) w = (Return xml, w1) ->
  F xml = Return root ->
  Exists lacks_identifier_type (children root) ->
  generate_citation G F mip centre model experiment version w
    = (Raise (KeyError "identifierType"), w1).
Proof.
  intros HG HF Hex.
  rewrite (generate_citation_fetched _ _ _ _ _ _ _ _ _ HG HF).
  unfold record_of. now rewrite (for_each_scan_lacks _ locals0 Hex).
Qed.

(** X12. Of several children of the same kind the last one wins: in a
    returned record [doi] is the text of the last child with
    "identifier" in its tag and [identifierType] "DOI", [publisher] the
    text of the last publisher child and [publicationYear] the text of the
    last year child, each the empty string when there is no such child. *)
Theorem generate_citation_last_wins mip centre model experiment version w xml
    w1 root r w' :
  G (url mip centre model experiment) w = (Return xml, w1) ->
  F xml = Return root ->
  generate_citation G F mip centre model experiment version w
    = (Return r, w') ->
  doi r = last_text (Some EmptyString) (List.filter is_doi (children root))
  /\ publisher r
     = last_text (Some EmptyString)
         (List.filter is_publisher (children root))
  /\ publicationYear r
     = last_text (Some EmptyString)
         (List.filter is_publicationYear (children root)).
Proof.
  intros HG HF H. apply generate_citation_inv in H.
  destruct H as (xml' & root' & l & ini & nms & HG' & HF' & Hl & _ & _ & ->).
  rewrite HG in HG'. injection HG' as <- _. rewrite HF in HF'.
  injection HF' as <-. cbn [doi publisher publicationYear].
  apply scan_children_scalars in Hl. exact Hl.
Qed.

(** X13. In every returned record the display names are the zip of the
    family names with the initials of the given names, cut at the shorter
    list: there are as many as the shorter list has entries, the i-th is
    the i-th family name, ", " and the initials of the i-th given name,
    and no given name is [None]. *)
Theorem generate_citation_names_zip mip centre model experiment version w r w' :
  generate_citation G F mip centre model experiment version w
    = (Return r, w') ->
  length (names r) = Nat.min (length (familyNames r)) (length (givenNames r))
  /\ (forall i n,
        names r !! i = Some n ->
        exists f g,
          familyNames r !! i = Some (Some f)
          /\ givenNames r !! i = Some (Some g)
          /\ n = f +:+ ", " +:+ initials g)
  /\ Forall (fun g => g <> None) (givenNames r).
Proof.
  intros H. apply generate_citation_inv in H.
  destruct H as (xml & root & l & ini & nms & _ & _ & _ & Hi & Hn & ->).
  cbn [names familyNames givenNames].
  apply comprehension_Forall2 in Hi, Hn.
  pose proof (Forall2_length _ _ _ Hi) as Li.
  pose proof (Forall2_length _ _ _ Hn) as Ln.
  rewrite length_zip_with in Ln. repeat split.
  - lia.
  - intros i n Hin.
    destruct (Forall2_lookup_r _ _ _ _ _ Hn Hin) as ([f0 b] & Hz & En).
    apply lookup_zip_with_Some in Hz.
    destruct Hz as (f1 & b1 & [= -> ->] & Hf & Hb).
    destruct (Forall2_lookup_r _ _ _ _ _ Hi Hb) as (g0 & Hg & Eg).
    destruct g0 as [g|]; [|discriminate]. injection Eg as <-.
    unfold display_name in En. cbn [fst snd] in En.
    destruct f1 as [f|]; [|discriminate]. injection En as <-.
    now exists f, g.
  - clear Hn Ln Li. induction Hi as [|g b gs bs E _ IH]; constructor; auto.
    destruct g; [discriminate | discriminate E].
Qed.

(** X14. A given-name element without text makes [generate_citation]
    raise [TypeError], when no identifier lacks its type. *)
Theorem generate_citation_missing_given mip centre model experiment version w
    xml w1 root :
  G (url mip centre model experiment) w = (Return xml, w1) ->
  F xml = Return root ->
  Forall (fun child => ~ lacks_identifier_type child) (children root) ->
  In None (flat_map given_of (creators_of root)) ->
  generate_citation G F mip centre model experiment version w
    = (Raise TypeError, w1).
Proof.
  intros HG HF Hok Hnone.
  rewrite (generate_citation_fetched _ _ _ _ _ _ _ _ _ HG HF).
  unfold record_of. destruct (for_each_scan_ok _ locals0 Hok) as [l Hl].
  rewrite Hl. apply scan_children_names in Hl. destruct Hl as [Eg _].
  cbn [locals0 l_givenNames] in Eg. rewrite app_nil_l in Eg.
  fold (creators_of root) in Eg. rewrite <- Eg in Hnone.
  now rewrite (comprehension_initials_None _ Hnone).
Qed.

(** X15. A document without any of the elements the loop looks for gives
    a record with the empty string for doi, publisher and year and no
    names; its citation is the template around empty fields. *)
Theorem generate_citation_blank mip centre model experiment version w xml w1
    root :
  G (url mip centre model experiment) w = (Return xml, w1) ->
  F xml = Return root ->
  Forall unmatched (children root) ->
  generate_citation G F mip centre model experiment version w
    = (Return
         {| MIP := mip; Centre := centre; Model := model;
            Experiment := experiment; Version := version;
            doi := Some EmptyString; publisher := Some EmptyString;
            publicationYear := Some EmptyString;
            givenNames := []; familyNames := []; names := [];
            citation :=
              " (). " +:+ centre +:+ " " +:+ model
              +:+ " model output prepared for CMIP6 " +:+ mip +:+ " "
              +:+ experiment +:+ ". " +:+ version
              +:+ ". . https://doi.org/" |},
       w1).
Proof.
  intros HG HF Hun.
  rewrite (generate_citation_fetched _ _ _ _ _ _ _ _ _ HG HF).
  unfold record_of. rewrite (for_each_unmatched _ locals0 Hun).
  reflexivity.
Qed.

(** X16. The version is no part of the query: a call that returns a
    record for one version returns, from the same world, a record for any
    other version with the same doi, publisher, year and names, and
    leaves the same world. *)
Theorem generate_citation_any_version mip centre model experiment version
    version' w r w' :
  generate_citation G F mip centre model experiment version w
    = (Return r, w') ->
  exists r',
    generate_citation G F mip centre model experiment version' w
      = (Return r', w')
    /\ Version r' = version'
    /\ doi r' = doi r /\ publisher r' = publisher r
    /\ publicationYear r' = publicationYear r
    /\ givenNames r' = givenNames r /\ familyNames r' = familyNames r
    /\ names r' = names r.
Proof.
  intros H. apply generate_citation_inv in H.
  destruct H as (xml & root & l & ini & nms & HG & HF & Hl & Hi & Hn & ->).
  rewrite (generate_citation_fetched _ _ _ _ version' _ _ _ _ HG HF).
  unfold record_of. rewrite Hl, Hi, Hn. eexists. split; [reflexivity|].
  repeat split.
Qed.

(** *** The batch *)

Lemma collect_app df1 df2 acc w :
  collect G F (df1 ++ df2) acc w =
    match collect G F df1 acc w with
    | (Return out1, w1) => collect G F df2 out1 w1
    | (Raise e, w1) => (Raise e, w1)
    end.
Proof.
  revert acc w. induction df1 as [|row df1 IH]; intros acc w; [reflexivity|].
  cbn [app collect]. unfold py_bind.
  destruct (generate_citation G F (row_MIP row) (row_Centre row)
              (row_Model row) (row_Experiment row) (row_Version row) w)
    as [[c|e] w1]; [apply IH | reflexivity].
Qed.

Lemma collect_acc df acc w :
  collect G F df acc w =
    match collect G F df [] w with
    | (Return out, w1) => (Return (acc ++ out), w1)
    | (Raise e, w1) => (Raise e, w1)
    end.
Proof.
  revert acc w. induction df as [|row df IH]; intros acc w.
  - cbn [collect]. unfold py_ret. now rewrite app_nil_r.
  - cbn [collect]. unfold py_bind.
    destruct (generate_citation G F (row_MIP row) (row_Centre row)
                (row_Model row) (row_Experiment row) (row_Version row) w)
      as [[c|e] w1]; [|reflexivity].
    rewrite (IH (acc ++ [c])), (IH ([] ++ [c])).
    destruct (collect G F df [] w1) as [[out|e] w2]; [|reflexivity].
    now rewrite <- app_assoc.
Qed.

(** X17. A table that is two tables one after the other is processed as
    the first and then the second, from the world the first left, and the
    output is the two outputs one after the other; a failure in the first
    part ends the batch before the second part is touched. *)
Theorem df_to_citations_app df1 df2 w :
  df_to_citations G F (df1 ++ df2) w =
    (out1 <~ df_to_citations G F df1 ;;
     out2 <~ df_to_citations G F df2 ;;
     py_ret (out1 ++ out2)) w.
Proof.
  unfold df_to_citations, py_bind, py_ret. rewrite collect_app.
  destruct (collect G F df1 [] w) as [[out1|e] w1]; [|reflexivity].
  rewrite collect_acc.
  destruct (collect G F df2 [] w1) as [[out2|e] w2]; reflexivity.
Qed.

(** X18. When the rows before some row are processed and the call on
    that row raises, [df_to_citations] raises the same exception and
    returns no table; the rows after it are not requested, the world is
    the one the failing call left. *)
Theorem df_to_citations_aborts before row after w outs w1 e w2 :
  df_to_citations G F before w = (Return outs, w1) ->
  generate_citation G F (row_MIP row) (row_Centre row) (row_Model row)
    (row_Experiment row) (row_Version row) w1 = (Raise e, w2) ->
  df_to_citations G F (before ++ row :: after) w = (Raise e, w2).
Proof.
  unfold df_to_citations. intros Hb Hr. rewrite collect_app, Hb.
  cbn [collect]. unfold py_bind. now rewrite Hr.
Qed.

End Edges.

(** X9 on a namespaced given-name element. *)
Lemma scan_name_by_substring_witness :
  scan_name locals0 namespaced_given
    = Locals (Some EmptyString) (Some EmptyString) (Some EmptyString)
        [Some "Jeff"] [].
Proof.
  apply (scan_name_by_substring locals0 namespaced_given).
  exists "{http://datacite.org/schema/kernel-4}", "". reflexivity.
Defined.

(** X11 on a document whose second child is an identifier without
    type. *)
Lemma generate_citation_untyped_identifier_witness :
  generate_citation one_body (parsed_as untyped_identifier)
    "CMIP" "MOHC" "HadGEM3-GC31-LL" "historical" "v20190624" 0
    = (Raise (KeyError "identifierType"), 1).
Proof.
  apply (generate_citation_untyped_identifier one_body
           (parsed_as untyped_identifier) "CMIP" "MOHC" "HadGEM3-GC31-LL"
           "historical" "v20190624" 0 "<resource/>" 1 untyped_identifier);
    [reflexivity | reflexivity |].
  apply Exists_cons_tl, Exists_cons_hd. split; reflexivity.
Defined.

(** X12 on a document with two DOI identifiers, two publishers and two
    years. *)
Lemma generate_citation_last_wins_witness :
  doi repeated_record = Some "10.1/new"
  /\ publisher repeated_record = Some "Earth System Grid Federation"
  /\ publicationYear repeated_record = Some "2019".
Proof.
  apply (generate_citation_last_wins one_body (parsed_as repeated_fields)
           "CMIP" "MOHC" "HadGEM3-GC31-LL" "historical" "v20190624"
           0 "<resource/>" 1 repeated_fields repeated_record 1);
    [reflexivity | reflexivity | vm_compute; reflexivity].
Defined.

(** X13 on a document with two given names and one family name. *)
Lemma generate_citation_names_zip_witness :
  length (names uneven_record) = 1
  /\ (forall i n,
        names uneven_record !! i = Some n ->
        exists f g,
          familyNames uneven_record !! i = Some (Some f)
          /\ givenNames uneven_record !! i = Some (Some g)
          /\ n = f +:+ ", " +:+ initials g)
  /\ Forall (fun g => g <> None) (givenNames uneven_record).
Proof.
  apply (generate_citation_names_zip one_body (parsed_as uneven)
           "CMIP" "MOHC" "HadGEM3-GC31-LL" "historical" "v20190624"
           0 uneven_record 1).
  vm_compute. reflexivity.
Defined.

(** X14 on a document whose creator has an empty given-name element. *)
Lemma generate_citation_missing_given_witness :
  generate_citation one_body (parsed_as empty_given)
    "CMIP" "MOHC" "HadGEM3-GC31-LL" "historical" "v20190624" 0
    = (Raise TypeError, 1).
Proof.
  apply (generate_citation_missing_given one_body (parsed_as empty_given)
           "CMIP" "MOHC" "HadGEM3-GC31-LL" "historical" "v20190624"
           0 "<resource/>" 1 empty_given);
    [reflexivity | reflexivity | | vm_compute; tauto].
  repeat constructor. intros [H _]. vm_compute in H. discriminate H.
Defined.

(** X15 on a document that holds titles and an alternate identifier. *)
Lemma generate_citation_blank_witness :
  generate_citation one_body (parsed_as titles_only)
    "CMIP" "MOHC" "HadGEM3-GC31-LL" "historical" "v20190624" 0
    = (Return blank_record, 1).
Proof.
  apply (generate_citation_blank one_body (parsed_as titles_only)
           "CMIP" "MOHC" "HadGEM3-GC31-LL" "historical" "v20190624"
           0 "<resource/>" 1 titles_only);
    [reflexivity | reflexivity |].
  repeat constructor.
Defined.

(** X16 on the example of the docstring, asked again for another
    version. *)
Lemma generate_citation_any_version_witness :
  exists r',
    generate_citation one_body (parsed_as hadgem)
      "CMIP" "MOHC" "HadGEM3-GC31-LL" "historical" "v20200101" 0
      = (Return r', 1)
    /\ Version r' = "v20200101"
    /\ doi r' = doi hadgem_record /\ publisher r' = publisher hadgem_record
    /\ publicationYear r' = publicationYear hadgem_record
    /\ givenNames r' = givenNames hadgem_record
    /\ familyNames r' = familyNames hadgem_record
    /\ names r' = names hadgem_record.
Proof.
  apply (generate_citation_any_version one_body (parsed_as hadgem)
           "CMIP" "MOHC" "HadGEM3-GC31-LL" "historical" "v20190624"
           "v20200101" 0 hadgem_record 1).
  vm_compute. reflexivity.
Defined.

(** X18 on a table of three rows and a service that answers once: the
    second row fails and the third is not requested. *)
Lemma df_to_citations_aborts_witness :
  df_to_citations one_answer (parsed_as hadgem)
    ([hadgem_row] ++ ssp_row :: [hadgem_row]) 0
    = (Raise (OtherError "connection refused"), 2).
Proof.
  apply (df_to_citations_aborts one_answer (parsed_as hadgem)
           [hadgem_row] ssp_row [hadgem_row] 0 [hadgem_record] 1);
    vm_compute; reflexivity.
Defined.

End GenDataCitationEdges.
